(** * MedHealth.ai: the medicine page component (upload, analysis, follow-up)

    A shallow embedding of the client component [Home] that owns the
    upload / analysis / follow-up session: its seven state cells, the three
    handlers [handleUpload], [askFollowUp] and [handleFileChange], and the
    [disabled] and conditional-rendering expressions that guard them.

    Handlers are written as small programs over the component state with the
    effects the source has: state setters, [alert], [throw] / [try]-[catch],
    and the suspension points [await fetch(...)], [await res.json()] and
    [await res.text()].  An event loop runs them: an invocation runs until it
    suspends or finishes, and a suspended invocation is resumed later with
    the settled value, other events being free to happen in between.

    Two conventions of React are taken as given: a handler reads the state
    of the latest render, and the component has re-rendered between two
    events.  A setter call replaces the cell's value, as the source only
    ever passes values to setters, never updater functions. *)

From Stdlib Require Import String Ascii DecimalString.
From Stdlib Require Import List NArith Bool Arith Lia.
Import ListNotations.

Set Warnings "-register-all".

(** ** JavaScript strings *)

(** A JavaScript string is a sequence of UTF-16 code units. *)
Definition jsstring := list N.

(** An ASCII literal of the source, as code units. *)
Definition lit (s : string) : jsstring :=
  map N_of_ascii (list_ascii_of_string s).

(** The code units that [String.prototype.trim] strips: ECMAScript
    WhiteSpace (TAB, VT, FF, ZWNBSP and the space separators) and
    LineTerminator (LF, CR, LS, PS). *)
Definition ws_units : list N :=
  [9; 10; 11; 12; 13; 32; 160; 5760;
   8192; 8193; 8194; 8195; 8196; 8197; 8198; 8199; 8200; 8201; 8202;
   8232; 8233; 8239; 8287; 12288; 65279]%N.

Definition is_ws (c : N) : bool := existsb (N.eqb c) ws_units.

Fixpoint trimStart (s : jsstring) : jsstring :=
  match s with
  | [] => []
  | c :: r => if is_ws c then trimStart r else s
  end.

Definition trimEnd (s : jsstring) : jsstring := rev (trimStart (rev s)).

Definition trim (s : jsstring) : jsstring := trimEnd (trimStart s).

(** Decimal rendering of a natural number (an HTTP status in a template). *)
Definition decimal (n : N) : jsstring :=
  lit (NilEmpty.string_of_uint (N.to_uint n)).

(** ** JavaScript values

    What [res.json()] can produce, plus [undefined], which property reads
    produce.  A number is kept as the two observations this component can
    make of it: its [ToString] rendering and whether it is zero (falsy).
    An object is the list of its own properties, first match wins. *)
Inductive jsval : Type :=
| VUndefined
| VNull
| VBool (b : bool)
| VNum (rendering : jsstring) (zero : bool)
| VStr (s : jsstring)
| VArr (elems : list jsval)
| VObj (props : list (jsstring * jsval)).

(** ToBoolean: what [!v], [v || d] and [v && e] test. *)
Definition truthy (v : jsval) : bool :=
  match v with
  | VUndefined | VNull => false
  | VBool b => b
  | VNum _ z => negb z
  | VStr s => match s with [] => false | _ => true end
  | VArr _ | VObj _ => true
  end.

(** Errors: [catch] only ever reads [err.message]. *)
Record exn : Type := Error { message : jsstring }.

(** A settled promise, or the result of an expression that may throw. *)
Inductive settled (A : Type) : Type :=
| Fulfilled (a : A)
| Rejected (e : exn).
Arguments Fulfilled {A} a.
Arguments Rejected {A} e.

Fixpoint jsstring_eqb (a b : jsstring) : bool :=
  match a, b with
  | [], [] => true
  | x :: a', y :: b' => N.eqb x y && jsstring_eqb a' b'
  | _, _ => false
  end.

Fixpoint own (props : list (jsstring * jsval)) (key : jsstring) : jsval :=
  match props with
  | [] => VUndefined
  | (k, v) :: r => if jsstring_eqb k key then v else own r key
  end.

(** [props] has an own property [key]. *)
Definition has_key (props : list (jsstring * jsval)) (key : jsstring) : bool :=
  existsb (fun kv => jsstring_eqb (fst kv) key) props.

(** The messages of the two TypeErrors an expression of this component can
    raise (V8's wording; engines differ, nothing below depends on the
    wording): a property read on [null] or [undefined], and the conversion
    to a string of an object that cannot be converted. *)
Definition nullish_read_message (v : jsval) (key : jsstring) : jsstring :=
  lit "Cannot read properties of "
  ++ match v with VNull => lit "null" | _ => lit "undefined" end
  ++ lit " (reading '" ++ key ++ lit "')".

Definition not_primitive : exn :=
  Error (lit "Cannot convert object to primitive value").

(** ToString, as a template literal applies it.  An array joins the
    strings of its elements with commas, [null] and [undefined] elements
    giving the empty string.  A parsed object has no callable property of
    its own, so an own [toString] hides [Object.prototype.toString] and the
    conversion throws; without one the object gives "[object Object]". *)
Fixpoint ToString (v : jsval) : settled jsstring :=
  match v with
  | VUndefined => Fulfilled (lit "undefined")
  | VNull => Fulfilled (lit "null")
  | VBool true => Fulfilled (lit "true")
  | VBool false => Fulfilled (lit "false")
  | VNum r _ => Fulfilled r
  | VStr s => Fulfilled s
  | VArr l =>
      (fix join (l : list jsval) : settled jsstring :=
         match l with
         | [] => Fulfilled []
         | x :: r =>
             match match x with
                   | VUndefined | VNull => Fulfilled []
                   | _ => ToString x
                   end
             with
             | Rejected e => Rejected e
             | Fulfilled sx =>
                 match r with
                 | [] => Fulfilled sx
                 | _ =>
                     match join r with
                     | Rejected e => Rejected e
                     | Fulfilled sr => Fulfilled (sx ++ lit "," ++ sr)
                     end
                 end
             end
         end) l
  | VObj props =>
      if has_key props (lit "toString") then Rejected not_primitive
      else Fulfilled (lit "[object Object]")
  end.

(** What React accepts as a child: strings, numbers, booleans, [null],
    [undefined] and arrays of such; rendering a plain object throws. *)
Fixpoint renderable (v : jsval) : bool :=
  match v with
  | VObj _ => false
  | VArr l =>
      (fix all (l : list jsval) : bool :=
         match l with
         | [] => true
         | x :: r => renderable x && all r
         end) l
  | _ => true
  end.

(** [v.key] for the property names this component reads ([text],
    [analysis], [candidates], [content], [parts]): none of them is a
    built-in property of strings, numbers, booleans or arrays, so the read
    gives [undefined] on those, the own property on an object, and throws
    on [null] and [undefined]. *)
Definition getField (v : jsval) (key : jsstring) : settled jsval :=
  match v with
  | VUndefined | VNull => Rejected (Error (nullish_read_message v key))
  | VObj props => Fulfilled (own props key)
  | _ => Fulfilled VUndefined
  end.

(** [v[0]] on a value that is neither [null] nor [undefined]: the first
    element of an array, the first code unit of a string, the own property
    "0" of an object. *)
Definition index0 (v : jsval) : jsval :=
  match v with
  | VArr (x :: _) => x
  | VStr (c :: _) => VStr [c]
  | VObj props => own props (lit "0")
  | _ => VUndefined
  end.

(** Optional chaining: [v?.key] and [v?.[0]] give [undefined] when [v] is
    [null] or [undefined] (the rest of the chain then gives [undefined]
    too), and read the property otherwise. *)
Definition optField (v : jsval) (key : jsstring) : jsval :=
  match v with
  | VUndefined | VNull => VUndefined
  | VObj props => own props key
  | _ => VUndefined
  end.

Definition optIndex0 (v : jsval) : jsval :=
  match v with
  | VUndefined | VNull => VUndefined
  | _ => index0 v
  end.

(** ** Component state *)

(** A selected file: display name, declared media type, payload. *)
Record File : Type := mkFile {
  file_name : jsstring;
  media_type : jsstring;
  payload : list N
}.

(** The seven [useState] cells of [Home].  [file] is [null] or [undefined]
    ([None]) or a File; [text], [analysis] and [followUp] hold whatever was
    last passed to their setters; [question] only ever receives
    [e.target.value], a string. *)
Record State : Type := mkState {
  file : option File;
  text : jsval;
  analysis : jsval;
  question : jsstring;
  followUp : jsval;
  loading : bool;
  uploadComplete : bool
}.

Definition initial : State :=
  {| file := None; text := VStr []; analysis := VStr []; question := [];
     followUp := VStr []; loading := false; uploadComplete := false |}.

Definition setFile (v : option File) (s : State) : State :=
  {| file := v; text := text s; analysis := analysis s;
     question := question s; followUp := followUp s;
     loading := loading s; uploadComplete := uploadComplete s |}.

Definition setText (v : jsval) (s : State) : State :=
  {| file := file s; text := v; analysis := analysis s;
     question := question s; followUp := followUp s;
     loading := loading s; uploadComplete := uploadComplete s |}.

Definition setAnalysis (v : jsval) (s : State) : State :=
  {| file := file s; text := text s; analysis := v;
     question := question s; followUp := followUp s;
     loading := loading s; uploadComplete := uploadComplete s |}.

Definition setQuestion (v : jsstring) (s : State) : State :=
  {| file := file s; text := text s; analysis := analysis s;
     question := v; followUp := followUp s;
     loading := loading s; uploadComplete := uploadComplete s |}.

Definition setFollowUp (v : jsval) (s : State) : State :=
  {| file := file s; text := text s; analysis := analysis s;
     question := question s; followUp := v;
     loading := loading s; uploadComplete := uploadComplete s |}.

Definition setLoading (v : bool) (s : State) : State :=
  {| file := file s; text := text s; analysis := analysis s;
     question := question s; followUp := followUp s;
     loading := v; uploadComplete := uploadComplete s |}.

Definition setUploadComplete (v : bool) (s : State) : State :=
  {| file := file s; text := text s; analysis := analysis s;
     question := question s; followUp := followUp s;
     loading := loading s; uploadComplete := v |}.

(** ** Network *)

Inductive reqbody : Type :=
| FormData (fields : list (jsstring * File))
| JsonBody (v : jsval).

Record Request : Type := mkRequest {
  url : jsstring;
  method : jsstring;
  headers : list (jsstring * jsstring);
  body : reqbody
}.

(** A response: its status, and what reading its body as JSON or as text
    settles to. *)
Record Response : Type := mkResponse {
  res_status : N;
  res_json : settled jsval;
  res_text : settled jsstring
}.

(** [res.ok]: the status is in the range 200-299. *)
Definition res_ok (r : Response) : bool :=
  (200 <=? res_status r)%N && (res_status r <=? 299)%N.
Arguments res_ok : simpl never.

(** ** Handler programs *)

(** The statements a handler is made of.  The three [Await*] are the
    suspension points; a rejected promise is thrown at the [await]. *)
Inductive Prog : Type :=
| Done
| Throw (e : exn)
| Call (setter : State -> State) (k : Prog)
| Alert (msg : jsstring) (k : Prog)
| AwaitFetch (req : Request) (k : Response -> Prog)
| AwaitJson (res : Response) (k : jsval -> Prog)
| AwaitText (res : Response) (k : jsstring -> Prog)
| Try (block : Prog) (handler : exn -> Prog) (k : Prog).

Declare Scope prog_scope.
Delimit Scope prog_scope with prog.
Bind Scope prog_scope with Prog.

Notation "c ;; k" := (c k%prog)
  (at level 100, k at level 200, right associativity, only parsing)
  : prog_scope.
Notation "x <- c ;; k" := (c (fun x => k%prog))
  (at level 100, c at next level, k at level 200, right associativity,
   only parsing) : prog_scope.
Notation "x <-! e ;; k" :=
  (match e with Fulfilled x => k%prog | Rejected err => Throw err end)
  (at level 100, e at next level, k at level 200, right associativity,
   only parsing) : prog_scope.

(** What the handlers touch besides the network: the state cells and the
    alerts shown so far (oldest first). *)
Record Mem : Type := mkMem {
  st : State;
  alerts : list jsstring
}.

(** The result of running an invocation as far as it goes: it finished, or
    it is suspended on a fetch or on a body read, with the rest of the
    invocation waiting for the settled value and the memory of that time. *)
Inductive Step : Type :=
| Finished (m : Mem)
| OnFetch (m : Mem) (req : Request) (resume : settled Response -> Mem -> Step)
| OnBody (m : Mem) (resume : Mem -> Step).

(** [exec p kn ke m]: run [p] from [m]; [kn] is what follows normal
    completion, [ke] what follows a throw. *)
Fixpoint exec (p : Prog) (kn : Mem -> Step) (ke : exn -> Mem -> Step)
  (m : Mem) : Step :=
  match p with
  | Done => kn m
  | Throw e => ke e m
  | Call f k => exec k kn ke {| st := f (st m); alerts := alerts m |}
  | Alert msg k => exec k kn ke {| st := st m; alerts := alerts m ++ [msg] |}
  | AwaitFetch req k =>
      OnFetch m req
        (fun o m' =>
           match o with
           | Fulfilled res => exec (k res) kn ke m'
           | Rejected e => ke e m'
           end)
  | AwaitJson res k =>
      OnBody m
        (fun m' =>
           match res_json res with
           | Fulfilled d => exec (k d) kn ke m'
           | Rejected e => ke e m'
           end)
  | AwaitText res k =>
      OnBody m
        (fun m' =>
           match res_text res with
           | Fulfilled t => exec (k t) kn ke m'
           | Rejected e => ke e m'
           end)
  | Try block handler k =>
      exec block (exec k kn ke) (fun e => exec (handler e) (exec k kn ke) ke) m
  end.

(** An invocation of an async handler: an exception that escapes it rejects
    the promise it returned, which nobody observes. *)
Definition invoke (p : Prog) (m : Mem) : Step :=
  exec p Finished (fun _ m' => Finished m') m.

(** ** The handlers of [Home] *)

Definition upload_url : jsstring := lit "http://127.0.0.1:8000/upload/".

(** [handleUpload], in a render whose state is [r].  Diagnostics
    ([console.log], [console.error]) are left out throughout. *)
Definition handleUpload (r : State) : Prog :=
  match file r with
  | None => Done
  | Some f =>
      let formData := [(lit "file", f)] in
      (Call (setLoading true) ;;
       Call (setUploadComplete false) ;;
       Try
         (res <- AwaitFetch {| url := upload_url; method := lit "POST";
                               headers := []; body := FormData formData |} ;;
          if negb (res_ok res) then Throw (Error (lit "Upload failed"))
          else
            data <- AwaitJson res ;;
            t <-! getField data (lit "text") ;;
            Call (setText t) ;;
            a <-! getField data (lit "analysis") ;;
            Call (setAnalysis a) ;;
            Call (setFollowUp (VStr [])) ;;
            Call (setUploadComplete true) ;;
            Done)
         (fun err => Alert (lit "Upload failed: " ++ message err) ;; Done) ;;
       Call (setLoading false) ;;
       Done)%prog
  end.

Definition newline : jsstring := [10%N].

(** The template literal of [askFollowUp], for a text already converted to
    the string [t]. *)
Definition prompt_text (t question : jsstring) : jsstring :=
  lit "The user uploaded this medicine content:" ++ newline ++
  t ++ newline ++
  lit "Now they ask: " ++ question ++ newline ++
  lit "Give a clear medical answer.".

(** The template literal itself: it converts [text] to a string, which can
    throw. *)
Definition prompt_of (text : jsval) (question : jsstring)
  : settled jsstring :=
  match ToString text with
  | Rejected e => Rejected e
  | Fulfilled t => Fulfilled (prompt_text t question)
  end.

Definition requestBody (prompt : jsstring) : jsval :=
  VObj
    [ (lit "contents",
       VArr [ VObj [ (lit "parts",
                      VArr [ VObj [ (lit "text", VStr prompt) ] ]) ] ]);
      (lit "generationConfig",
       VObj [ (lit "temperature", VNum (lit "0.7") false);
              (lit "topP", VNum (lit "0.8") false);
              (lit "topK", VNum (lit "40") false);
              (lit "maxOutputTokens", VNum (lit "1024") false) ]) ].

Definition gemini_url (apiKey : jsstring) : jsstring :=
  lit "https://generativelanguage.googleapis.com/v1beta/models/gemini-2.0-flash:generateContent?key="
  ++ apiKey.

(** [a || b] on strings. *)
Definition str_or (a b : jsstring) : jsstring :=
  match a with [] => b | _ => a end.

(** [data.candidates?.[0]?.content?.parts?.[0]?.text]: only the first read
    is not optional. *)
Definition reply_path (data : jsval) : settled jsval :=
  match getField data (lit "candidates") with
  | Rejected e => Rejected e
  | Fulfilled candidates =>
      Fulfilled
        (optField
           (optIndex0
              (optField (optField (optIndex0 candidates) (lit "content"))
                 (lit "parts")))
           (lit "text"))
  end.

Definition no_response : jsstring := lit "No response received".

(** [askFollowUp], in a render whose state is [r]; [apiKey] is
    [process.env.NEXT_PUBLIC_GEMINI_API_KEY], a string or [undefined]. *)
Definition askFollowUp (apiKey : option jsstring) (r : State) : Prog :=
  if negb (truthy (VStr (question r))) || negb (truthy (text r)) then Done
  else
    (Call (setLoading true) ;;
     prompt <-! prompt_of (text r) (question r) ;;
     Try
       match apiKey with
       | None | Some [] =>
           Throw (Error (lit "Gemini API key not found. Please check your environment variables."))
       | Some key =>
           res <- AwaitFetch
                    {| url := gemini_url key; method := lit "POST";
                       headers := [(lit "Content-Type", lit "application/json")];
                       body := JsonBody (requestBody prompt) |} ;;
           if negb (res_ok res) then
             errorText <- AwaitText res ;;
             Throw (Error (lit "HTTP error! status: " ++ decimal (res_status res)
                           ++ lit ", message: " ++ errorText))
           else
             data <- AwaitJson res ;;
             path <-! reply_path data ;;
             let reply := if truthy path then path else VStr no_response in
             Call (setFollowUp reply) ;;
             Done
       end
       (fun err =>
          Alert (lit "Follow-up failed: "
                 ++ str_or (message err) (lit "Unknown error")) ;;
          Done) ;;
     Call (setLoading false) ;;
     Done)%prog.

(** [handleFileChange]: [files] is [e.target.files]; [files[0]] is
    [undefined] when the list is empty. *)
Definition handleFileChange (files : list File) : Prog :=
  let selectedFile := hd_error files in
  (Call (setFile selectedFile) ;;
   Call (setText (VStr [])) ;;
   Call (setAnalysis (VStr [])) ;;
   Call (setFollowUp (VStr [])) ;;
   Call (setUploadComplete false) ;;
   Done)%prog.

(** The question input's [onChange]. *)
Definition changeQuestion (value : jsstring) : Prog :=
  (Call (setQuestion value) ;; Done)%prog.

(** ** What is rendered *)

(** [disabled={!file || loading}] on the upload button. *)
Definition upload_disabled (s : State) : bool :=
  match file s with None => true | Some _ => false end || loading s.

(** The results section, with the question input and the Ask button, is
    under [{text && (...)}]. *)
Definition results_rendered (s : State) : bool := truthy (text s).

(** [disabled={!uploadComplete}] on the question input. *)
Definition question_disabled (s : State) : bool := negb (uploadComplete s).

(** [disabled={!uploadComplete || !question.trim() || loading}] on Ask. *)
Definition ask_disabled (s : State) : bool :=
  negb (uploadComplete s) || negb (truthy (VStr (trim (question s))))
  || loading s.

(** The page renders: inside the results section [{text}], [{analysis}]
    and, under [{followUp && (...)}], [{followUp}] are children.  When
    rendering throws, the component is gone and nothing can be done through
    it any more. *)
Definition page_renders (s : State) : bool :=
  if results_rendered s then
    renderable (text s) && renderable (analysis s)
    && (if truthy (followUp s) then renderable (followUp s) else true)
  else true.

(** The answer panel: [{followUp && (...)}] inside the results section. *)
Definition shown_followUp (s : State) : option jsval :=
  if results_rendered s && truthy (followUp s) then Some (followUp s)
  else None.

(** ** The event loop *)

(** A suspended invocation. *)
Inductive Pending : Type :=
| PFetch (resume : settled Response -> Mem -> Step)
| PBody (resume : Mem -> Step).

(** The page: the memory, every request sent so far (oldest first), and the
    invocations that are suspended. *)
Record Sys : Type := mkSys {
  mem : Mem;
  net : list Request;
  pending : list Pending
}.

Definition start : Sys :=
  {| mem := {| st := initial; alerts := [] |}; net := []; pending := [] |}.

(** Take in the result of running an invocation: a fetch it suspends on is
    a request sent. *)
Definition absorb (sys : Sys) (r : Step) : Sys :=
  match r with
  | Finished m => {| mem := m; net := net sys; pending := pending sys |}
  | OnFetch m req resume =>
      {| mem := m; net := net sys ++ [req];
         pending := pending sys ++ [PFetch resume] |}
  | OnBody m resume =>
      {| mem := m; net := net sys; pending := pending sys ++ [PBody resume] |}
  end.

Definition drop_nth {A : Type} (i : nat) (l : list A) : list A :=
  firstn i l ++ skipn (S i) l.

(** What can happen to the page.  The first four call a handler directly
    (each handler sees the state of the latest render); the next four go
    through the rendered controls, so they need the page to render and
    honour [disabled] and the conditional rendering; the last two settle
    the [i]-th suspended invocation. *)
Inductive Event : Type :=
| CallHandleUpload
| CallAskFollowUp
| FileChange (files : list File)
| QuestionChange (value : jsstring)
| ClickUpload
| ClickAsk
| TypeQuestion (value : jsstring)
| SelectFile (files : list File)
| FetchSettles (i : nat) (o : settled Response)
| BodyRead (i : nat).

Definition call (p : Prog) (sys : Sys) : Sys :=
  absorb sys (invoke p (mem sys)).

Definition step (apiKey : option jsstring) (e : Event) (sys : Sys) : Sys :=
  let s := st (mem sys) in
  match e with
  | CallHandleUpload => call (handleUpload s) sys
  | CallAskFollowUp => call (askFollowUp apiKey s) sys
  | FileChange files => call (handleFileChange files) sys
  | QuestionChange v => call (changeQuestion v) sys
  | ClickUpload =>
      if page_renders s && negb (upload_disabled s)
      then call (handleUpload s) sys else sys
  | ClickAsk =>
      if page_renders s && results_rendered s && negb (ask_disabled s)
      then call (askFollowUp apiKey s) sys else sys
  | TypeQuestion v =>
      if page_renders s && results_rendered s && negb (question_disabled s)
      then call (changeQuestion v) sys else sys
  | SelectFile files =>
      if page_renders s then call (handleFileChange files) sys else sys
  | FetchSettles i o =>
      match nth_error (pending sys) i with
      | Some (PFetch resume) =>
          absorb {| mem := mem sys; net := net sys;
                    pending := drop_nth i (pending sys) |}
                 (resume o (mem sys))
      | _ => sys
      end
  | BodyRead i =>
      match nth_error (pending sys) i with
      | Some (PBody resume) =>
          absorb {| mem := mem sys; net := net sys;
                    pending := drop_nth i (pending sys) |}
                 (resume (mem sys))
      | _ => sys
      end
  end.

Definition run (apiKey : option jsstring) (evs : list Event) (sys : Sys)
  : Sys :=
  fold_left (fun acc e => step apiKey e acc) evs sys.

(** The requests still waiting for the provider. *)
Definition is_fetch (p : Pending) : bool :=
  match p with PFetch _ => true | PBody _ => false end.

Definition in_flight (sys : Sys) : nat :=
  length (filter is_fetch (pending sys)).

(** ** Sample data *)

Definition doc1 : File :=
  {| file_name := lit "label.png"; media_type := lit "image/png";
     payload := [137; 80; 78; 71]%N |}.

Definition doc2 : File :=
  {| file_name := lit "leaflet.pdf"; media_type := lit "application/pdf";
     payload := [37; 80; 68; 70]%N |}.

Definition key1 : option jsstring := Some (lit "k").

(** A 200 response whose body parses to [data]. *)
Definition ok_json (data : jsval) : Response :=
  {| res_status := 200; res_json := Fulfilled data;
     res_text := Fulfilled [] |}.

Definition analysis_data : jsval :=
  VObj [ (lit "text", VStr (lit "BP: take 1 tablet twice daily"));
         (lit "analysis", VStr (lit "Antihypertensive")) ].

(** A follow-up response carrying [answer] at
    [candidates[0].content.parts[0].text]. *)
Definition answer_data (answer : jsstring) : jsval :=
  VObj [ (lit "candidates",
          VArr [ VObj [ (lit "content",
                         VObj [ (lit "parts",
                                 VArr [ VObj [ (lit "text", VStr answer) ] ])
                              ]) ] ]) ].

(** An analysis response without the [analysis] field. *)
Definition partial_data : jsval :=
  VObj [ (lit "text", VStr (lit "Paracetamol 500mg")) ].

(** The page after [doc1] was selected, uploaded and analysed. *)
Definition analyzed : Sys :=
  run key1
    [ SelectFile [doc1]; ClickUpload;
      FetchSettles 0 (Fulfilled (ok_json analysis_data)); BodyRead 0 ]
    start.

(** The request [handleUpload] sends for [f], and the one [askFollowUp]
    sends with key [k] for a prompt. *)
Definition upload_request (f : File) : Request :=
  {| url := upload_url; method := lit "POST"; headers := [];
     body := FormData [(lit "file", f)] |}.

Definition followUp_request (k prompt : jsstring) : Request :=
  {| url := gemini_url k; method := lit "POST";
     headers := [(lit "Content-Type", lit "application/json")];
     body := JsonBody (requestBody prompt) |}.

(** A response that carries an error text, for a status outside 200-299;
    its body is not JSON. *)
Definition error_response (status : N) (errorText : jsstring) : Response :=
  {| res_status := status;
     res_json := Rejected (Error (lit "Unexpected token"));
     res_text := Fulfilled errorText |}.



(** ** Vocabulary of the properties *)

(** A question with nothing but whitespace in it (the empty one included). *)
Definition whitespace_only (q : jsstring) : bool := forallb is_ws q.

(** What the user can do through the rendered page. *)
Definition user_event (e : Event) : bool :=
  match e with
  | ClickUpload | ClickAsk | TypeQuestion _ | SelectFile _ => true
  | _ => false
  end.

(** What can happen to the rendered page: what the user does through it,
    and the settling of what is suspended. *)
Definition page_event (e : Event) : bool :=
  match e with
  | ClickUpload | ClickAsk | TypeQuestion _ | SelectFile _
  | FetchSettles _ _ | BodyRead _ => true
  | _ => false
  end.

(** The session as the two flags tell it: an operation is in flight
    ([loading]), or an analysis is on display ([uploadComplete]), or
    neither.  The component has no flag for a failure: a failed operation
    raises an alert and leaves the flags at [Idle] or [Analyzed]. *)
Inductive Phase : Type := Idle | Busy | Analyzed.

Definition phase (s : State) : Phase :=
  if loading s then Busy
  else if uploadComplete s then Analyzed else Idle.

(** [askFollowUp]'s guard [if (!question || !text) return] lets the call
    through. *)
Definition past_guard (r : State) : bool :=
  truthy (VStr (question r)) && truthy (text r).

(** Reading a [Step]: the memory it left, the request it sent if it is
    suspended on a fetch, and how it goes on when the fetch settles with
    [o], or the body read completes, the memory then being [m]. *)
Definition mem_of (s : Step) : Mem :=
  match s with
  | Finished m | OnFetch m _ _ | OnBody m _ => m
  end.

Definition sent (s : Step) : option Request :=
  match s with OnFetch _ req _ => Some req | _ => None end.

Definition after_fetch (s : Step) (o : settled Response) (m : Mem) : Step :=
  match s with OnFetch _ _ resume => resume o m | _ => s end.

Definition after_body (s : Step) (m : Mem) : Step :=
  match s with OnBody _ resume => resume m | _ => s end.



(** An invocation is orderly when, resumed only while [loading] is set,
    it is suspended only with [loading] set and finishes with it reset. *)
Inductive orderly : Step -> Prop :=
| orderly_finished (m : Mem) :
    loading (st m) = false -> orderly (Finished m)
| orderly_fetch (m : Mem) (req : Request)
    (resume : settled Response -> Mem -> Step) :
    loading (st m) = true ->
    (forall o m', loading (st m') = true -> orderly (resume o m')) ->
    orderly (OnFetch m req resume)
| orderly_body (m : Mem) (resume : Mem -> Step) :
    loading (st m) = true ->
    (forall m', loading (st m') = true -> orderly (resume m')) ->
    orderly (OnBody m resume).

Definition orderly_pending (p : Pending) : Prop :=
  match p with
  | PFetch resume =>
      forall o m, loading (st m) = true -> orderly (resume o m)
  | PBody resume => forall m, loading (st m) = true -> orderly (resume m)
  end.

(** The page is in single flight: nothing is suspended and [loading] is
    reset, or [loading] is set and exactly one orderly invocation is
    suspended. *)
Definition single_flight (sys : Sys) : Prop :=
  (loading (st (mem sys)) = false /\ pending sys = [])
  \/ (loading (st (mem sys)) = true
      /\ exists p, pending sys = [p] /\ orderly_pending p).

Arguments lit : simpl never.
Arguments prompt_of : simpl never.
Arguments prompt_text : simpl never.
Arguments requestBody : simpl never.
Arguments gemini_url : simpl never.
Arguments decimal : simpl never.
Arguments reply_path : simpl never.

(** * The dashboard component

    [Dashboard] of [app/dashboard/page.jsx]: the sync of the signed-in user
    to the backend, run from an effect, and [fetchData] behind its button.
    What Clerk's hooks return in a render is an input, and so is what
    [getToken()] settles to. *)
Module Dashboard.

(** [user.fullName] is a string or [null]; [primaryEmailAddress] is
    [null] or an address, kept as its [emailAddress]. *)
Record ClerkUser : Type := mkClerkUser {
  fullName : jsval;
  primaryEmailAddress : option jsstring
}.

(** [useAuth()] and [useUser()] in a render. *)
Record Auth : Type := mkAuth {
  isLoaded : bool;
  isSignedIn : bool;
  user : option ClerkUser
}.

Record State : Type := mkState {
  response : jsval;
  syncing : bool
}.

Definition initial : State := {| response := VNull; syncing := false |}.

Definition setResponse (v : jsval) (s : State) : State :=
  {| response := v; syncing := syncing s |}.

Definition setSyncing (v : bool) (s : State) : State :=
  {| response := response s; syncing := v |}.

(** A request: [method] and [body] are absent from [fetchData]'s. *)
Record Request : Type := mkRequest {
  url : jsstring;
  method : option jsstring;
  headers : list (jsstring * jsstring);
  body : option jsval
}.

Inductive Prog : Type :=
| Done
| Throw (e : exn)
| Call (setter : State -> State) (k : Prog)
| Alert (msg : jsstring) (k : Prog)
| AwaitToken (k : option jsstring -> Prog)
| AwaitFetch (req : Request) (k : Response -> Prog)
| AwaitJson (res : Response) (k : jsval -> Prog)
| AwaitText (res : Response) (k : jsstring -> Prog)
| Try (block : Prog) (handler : exn -> Prog) (k : Prog).

Record Mem : Type := mkMem {
  st : State;
  alerts : list jsstring
}.

Inductive Step : Type :=
| Finished (m : Mem)
| OnToken (m : Mem) (resume : settled (option jsstring) -> Mem -> Step)
| OnFetch (m : Mem) (req : Request)
    (resume : settled Response -> Mem -> Step)
| OnBody (m : Mem) (resume : Mem -> Step).

Fixpoint exec (p : Prog) (kn : Mem -> Step) (ke : exn -> Mem -> Step)
  (m : Mem) : Step :=
  match p with
  | Done => kn m
  | Throw e => ke e m
  | Call f k => exec k kn ke {| st := f (st m); alerts := alerts m |}
  | Alert msg k =>
      exec k kn ke {| st := st m; alerts := alerts m ++ [msg] |}
  | AwaitToken k =>
      OnToken m
        (fun o m' =>
           match o with
           | Fulfilled token => exec (k token) kn ke m'
           | Rejected e => ke e m'
           end)
  | AwaitFetch req k =>
      OnFetch m req
        (fun o m' =>
           match o with
           | Fulfilled res => exec (k res) kn ke m'
           | Rejected e => ke e m'
           end)
  | AwaitJson res k =>
      OnBody m
        (fun m' =>
           match res_json res with
           | Fulfilled d => exec (k d) kn ke m'
           | Rejected e => ke e m'
           end)
  | AwaitText res k =>
      OnBody m
        (fun m' =>
           match res_text res with
           | Fulfilled t => exec (k t) kn ke m'
           | Rejected e => ke e m'
           end)
  | Try block handler k =>
      exec block (exec k kn ke)
        (fun e => exec (handler e) (exec k kn ke) ke) m
  end.

Definition invoke (p : Prog) (m : Mem) : Step :=
  exec p Finished (fun _ m' => Finished m') m.

(** [`Bearer ${token}`]: [getToken()] gives a string or [null]. *)
Definition bearer (token : option jsstring) : jsstring :=
  lit "Bearer "
  ++ match token with Some t => t | None => lit "null" end.

(** The value [syncUser] hands to [JSON.stringify]. *)
Definition sync_body (u : ClerkUser) : jsval :=
  VObj [ (lit "name", fullName u);
         (lit "email",
          match primaryEmailAddress u with
          | Some a => VStr a
          | None => VUndefined
          end) ].

Definition sync_request (u : ClerkUser) (token : option jsstring)
  : Request :=
  {| url := lit "http://localhost:4000/api/users";
     method := Some (lit "POST");
     headers := [ (lit "Content-Type", lit "application/json");
                  (lit "Authorization", bearer token) ];
     body := Some (sync_body u) |}.

Definition protected_request (token : option jsstring) : Request :=
  {| url := lit "http://localhost:4000/api/protected";
     method := None;
     headers := [ (lit "Authorization", bearer token) ];
     body := None |}.

(** The effect: its guard, then the call of [syncUser]. *)
Definition syncUser (a : Auth) : Prog :=
  if negb (isLoaded a) || negb (isSignedIn a) then Done
  else
    match user a with
    | None => Done
    | Some u =>
        (Call (setSyncing true) ;;
         Try
           (token <- AwaitToken ;;
            res <- AwaitFetch (sync_request u token) ;;
            if negb (res_ok res) then
              errorText <- AwaitText res ;;
              Throw (Error (lit "Failed to sync user"))
            else
              data <- AwaitJson res ;;
              Done)
           (fun err => Done) ;;
         Call (setSyncing false) ;;
         Done)%prog
    end.

Definition fetchData (a : Auth) : Prog :=
  if negb (isLoaded a) || negb (isSignedIn a) then
    (Alert (lit "Please sign in first") ;; Done)%prog
  else
    (token <- AwaitToken ;;
     res <- AwaitFetch (protected_request token) ;;
     if negb (res_ok res) then
       Alert (lit "Failed to fetch protected data") ;; Done
     else
       data <- AwaitJson res ;;
       Call (setResponse data) ;;
       Done)%prog.

(** The button that calls [fetchData] is rendered only past the two early
    returns of the render. *)
Definition button_rendered (a : Auth) : bool := isLoaded a && isSignedIn a.

(** Reading a [Step], as for the medicine page. *)
Definition sent (s : Step) : option Request :=
  match s with OnFetch _ req _ => Some req | _ => None end.

Definition after_token (s : Step) (o : settled (option jsstring))
  (m : Mem) : Step :=
  match s with OnToken _ resume => resume o m | _ => s end.

Definition after_fetch (s : Step) (o : settled Response) (m : Mem) : Step :=
  match s with OnFetch _ _ resume => resume o m | _ => s end.

Definition after_body (s : Step) (m : Mem) : Step :=
  match s with OnBody _ resume => resume m | _ => s end.

(** An invocation followed to its end: the token settles with [tok] in
    memory [m1], the fetch with [o] in [m2], the body read completes in
    [m3]. *)
Definition settle (s : Step) (tok : settled (option jsstring))
  (o : settled Response) (m1 m2 m3 : Mem) : Step :=
  after_body (after_fetch (after_token s tok m1) o m2) m3.

(** A sync in progress is quiet: wherever it suspends or ends, it has
    raised no alert and left [response] alone since it was started or
    last resumed; and where it ends, [syncing] is reset. *)
Inductive quiet_sync : Mem -> Step -> Prop :=
| quiet_finished (m0 m : Mem) :
    response (st m) = response (st m0) -> alerts m = alerts m0 ->
    syncing (st m) = false ->
    quiet_sync m0 (Finished m)
| quiet_token (m0 m : Mem)
    (resume : settled (option jsstring) -> Mem -> Step) :
    response (st m) = response (st m0) -> alerts m = alerts m0 ->
    (forall o m', quiet_sync m' (resume o m')) ->
    quiet_sync m0 (OnToken m resume)
| quiet_fetch (m0 m : Mem) (req : Request)
    (resume : settled Response -> Mem -> Step) :
    response (st m) = response (st m0) -> alerts m = alerts m0 ->
    (forall o m', quiet_sync m' (resume o m')) ->
    quiet_sync m0 (OnFetch m req resume)
| quiet_body (m0 m : Mem) (resume : Mem -> Step) :
    response (st m) = response (st m0) -> alerts m = alerts m0 ->
    (forall m', quiet_sync m' (resume m')) ->
    quiet_sync m0 (OnBody m resume).

Definition signed_in : Auth :=
  {| isLoaded := true; isSignedIn := true;
     user := Some {| fullName := VStr (lit "Ada Lovelace");
                     primaryEmailAddress := None |} |}.

End Dashboard.

(** * The backend route

    [POST /api/users] of [server.js]: find the user of the authenticated
    caller, or create it.  The handler runs behind Clerk's middleware, so
    [req.auth.userId] is given; the two Mongoose calls it awaits are
    carried out by the database at some later moment, other requests being
    free to run in between. *)
Module Server.

(** A document of the [User] model: the caller's id and the two fields as
    the schema holds them, each a string, [null], or [undefined] when not
    set.  The [_id] Mongoose adds is not modelled. *)
Record Doc : Type := mkDoc {
  clerkId : jsstring;
  name : jsval;
  email : jsval
}.

(** What [save()] is rejected with when a value cannot be cast.  Nothing
    reads its message, which is abridged here. *)
Definition cast_error : exn := Error (lit "Cast to string failed").

(** The schema types [name] and [email] as [String].  Mongoose's cast to
    string, on a value of a parsed body: [null] and [undefined] pass, a
    string is kept, a number or a boolean becomes its string, an object
    with a non-empty string [_id] becomes that string; an array and any
    other object cannot be cast (an object has no callable [toString] of
    its own, and the inherited one is refused). *)
Definition castString (v : jsval) : settled jsval :=
  match v with
  | VUndefined | VNull => Fulfilled v
  | VStr s => Fulfilled (VStr s)
  | VNum r _ => Fulfilled (VStr r)
  | VBool true => Fulfilled (VStr (lit "true"))
  | VBool false => Fulfilled (VStr (lit "false"))
  | VArr _ => Rejected cast_error
  | VObj props =>
      match own props (lit "_id") with
      | VStr (c :: s) => Fulfilled (VStr (c :: s))
      | _ => Rejected cast_error
      end
  end.

(** [new User({ clerkId, name, email })] followed by the validation that
    [save()] runs first: a value that cannot be cast makes the document
    invalid, and [save()] is rejected before anything is written. *)
Definition new_User (userId : jsstring) (name email : jsval)
  : settled Doc :=
  match castString name with
  | Rejected e => Rejected e
  | Fulfilled n =>
      match castString email with
      | Rejected e => Rejected e
      | Fulfilled m =>
          Fulfilled {| clerkId := userId; name := n; email := m |}
      end
  end.

Inductive Prog : Type :=
| Done
| Throw (e : exn)
| FindOne (clerkId : jsstring) (k : option Doc -> Prog)
| Save (d : Doc) (k : Prog)
| Json (d : Doc) (k : Prog).

(** The handler, for the body [req.body] and the caller [req.auth.userId].
    The destructuring [const { name, email } = req.body] throws when the
    body is [null] or [undefined] and reads the two properties otherwise;
    nothing catches what the handler throws or what it awaits rejects
    with, and it then sends nothing. *)
Definition post_users (body : jsval) (userId : jsstring) : Prog :=
  match getField body (lit "name") with
  | Rejected e => Throw e
  | Fulfilled name =>
      match getField body (lit "email") with
      | Rejected e => Throw e
      | Fulfilled email =>
          FindOne userId
            (fun user =>
               match user with
               | Some u => Json u Done
               | None =>
                   match new_User userId name email with
                   | Rejected e => Throw e
                   | Fulfilled u => Save u (Json u Done)
                   end
               end)
      end
  end.

(** What the handler makes of a body for a new caller: the document it
    saves, or the error its [save()] is rejected with. *)
Definition document_of (body : jsval) (userId : jsstring) : settled Doc :=
  match getField body (lit "name") with
  | Rejected e => Rejected e
  | Fulfilled name =>
      match getField body (lit "email") with
      | Rejected e => Rejected e
      | Fulfilled email => new_User userId name email
      end
  end.

(** A handler waiting for the database. *)
Inductive Task : Type :=
| WaitFind (clerkId : jsstring) (k : option Doc -> Prog)
| WaitSave (d : Doc) (k : Prog).

(** The server: the collection in insertion order, the handlers that are
    waiting, and the documents sent back by [res.json] so far. *)
Record World : Type := mkWorld {
  db : list Doc;
  tasks : list Task;
  replies : list Doc
}.

(** Run a handler until it waits or ends. *)
Fixpoint advance (p : Prog) (w : World) : World :=
  match p with
  | Done | Throw _ => w
  | FindOne c k =>
      {| db := db w; tasks := tasks w ++ [WaitFind c k];
         replies := replies w |}
  | Save d k =>
      {| db := db w; tasks := tasks w ++ [WaitSave d k];
         replies := replies w |}
  | Json d k =>
      advance k {| db := db w; tasks := tasks w; replies := replies w ++ [d] |}
  end.

(** [User.findOne({ clerkId })]: the first document with that [clerkId]. *)
Definition findOne (docs : list Doc) (c : jsstring) : option Doc :=
  find (fun d => jsstring_eqb (clerkId d) c) docs.

(** A request arrives, or the database carries out what the [i]-th waiting
    handler asked for (a lookup, or the insertion of a document that
    passed validation), or fails to (the handler's promise is then rejected
    and it sends nothing). *)
Inductive Event : Type :=
| Post (body : jsval) (userId : jsstring)
| DbDone (i : nat)
| DbFails (i : nat).

Definition step (e : Event) (w : World) : World :=
  match e with
  | Post body userId => advance (post_users body userId) w
  | DbDone i =>
      match nth_error (tasks w) i with
      | Some (WaitFind c k) =>
          advance (k (findOne (db w) c))
            {| db := db w; tasks := drop_nth i (tasks w);
               replies := replies w |}
      | Some (WaitSave d k) =>
          advance k
            {| db := db w ++ [d]; tasks := drop_nth i (tasks w);
               replies := replies w |}
      | None => w
      end
  | DbFails i =>
      match nth_error (tasks w) i with
      | Some _ =>
          {| db := db w; tasks := drop_nth i (tasks w);
             replies := replies w |}
      | None => w
      end
  end.

Definition run (evs : list Event) (w : World) : World :=
  fold_left (fun acc e => step e acc) evs w.

(** One request served from its arrival to its end, nothing else running
    meanwhile. *)
Definition serve (w : World) (req : jsval * jsstring) : World :=
  run [Post (fst req) (snd req); DbDone 0; DbDone 0] w.

(** No two documents of the collection share a [clerkId]. *)
Definition unique_ids (docs : list Doc) : Prop := NoDup (map clerkId docs).


Definition ada_body : jsval :=
  VObj [ (lit "name", VStr (lit "Ada"));
         (lit "email", VStr (lit "ada@example.org")) ].

Definition other_body : jsval :=
  VObj [ (lit "name", VStr (lit "Augusta"));
         (lit "email", VStr (lit "augusta@example.org")) ].

Definition empty_world : World := {| db := []; tasks := []; replies := [] |}.

(** A body whose name the schema cannot cast. *)
Definition odd_body : jsval :=
  VObj [ (lit "name", VObj [ (lit "first", VStr (lit "Ada")) ]);
         (lit "email", VStr (lit "ada@example.org")) ].

End Server.

Arguments Server.findOne : simpl never.
Arguments Server.new_User : simpl never.

(** ** Vocabulary of the further properties *)

(** [keeps R m0 s]: every memory the invocation leaves, where it suspends
    and where it ends, is related by [R] to the memory it was started or
    last resumed from, whatever it is resumed with. *)
Inductive keeps (R : State -> State -> Prop) : Mem -> Step -> Prop :=
| keeps_finished (m0 m : Mem) :
    R (st m0) (st m) -> keeps R m0 (Finished m)
| keeps_fetch (m0 m : Mem) (req : Request)
    (resume : settled Response -> Mem -> Step) :
    R (st m0) (st m) ->
    (forall o m', keeps R m' (resume o m')) ->
    keeps R m0 (OnFetch m req resume)
| keeps_body (m0 m : Mem) (resume : Mem -> Step) :
    R (st m0) (st m) ->
    (forall m', keeps R m' (resume m')) ->
    keeps R m0 (OnBody m resume).

(** What [handleUpload] leaves alone, and what [askFollowUp] does. *)
Definition upload_frame (a b : State) : Prop :=
  file b = file a /\ question b = question a.

Definition followUp_frame (a b : State) : Prop :=
  file b = file a /\ text b = text a /\ analysis b = analysis a
  /\ question b = question a /\ uploadComplete b = uploadComplete a.

Definition nullish (v : jsval) : bool :=
  match v with VUndefined | VNull => true | _ => false end.

(** The fetch settled with a 2xx response whose body parses to a value
    other than [null]. *)
Definition usable (o : settled Response) : bool :=
  match o with
  | Fulfilled res =>
      res_ok res
      && match res_json res with
         | Fulfilled data => negb (nullish data)
         | Rejected _ => false
         end
  | Rejected _ => false
  end.

(** An invocation followed to its end: its fetch settles with [o] when the
    memory is [m1], and the body read it may then wait for completes when
    the memory is [m2]. *)
Definition settle (s : Step) (o : settled Response) (m1 m2 : Mem) : Step :=
  after_body (after_fetch s o m1) m2.

(** No upload has completed for the selection and no text is held. *)
Definition awaiting_analysis (s : State) : Prop :=
  uploadComplete s = false /\ truthy (text s) = false.

(** A follow-up response with more in it than the reply: two candidates,
    two parts, and fields the component does not read. *)
Definition rich_answer : jsval :=
  VObj
    [ (lit "candidates",
       VArr
         [ VObj [ (lit "content",
                   VObj [ (lit "parts",
                           VArr [ VObj [ (lit "text", VStr (lit "Take it ")) ];
                                  VObj [ (lit "text", VStr (lit "with food.")) ]
                                ]);
                          (lit "role", VStr (lit "model")) ]);
                  (lit "finishReason", VStr (lit "STOP")) ];
           VObj [ (lit "content",
                   VObj [ (lit "parts",
                           VArr [ VObj [ (lit "text", VStr (lit "Other.")) ] ])
                        ]) ] ]);
      (lit "modelVersion", VStr (lit "gemini-2.0-flash")) ].

(** * Properties *)

(** ** Strings and values *)

Lemma trimStart_whitespace (q : jsstring) :
  whitespace_only q = true -> trimStart q = [].
Proof.
  induction q as [|c q IH]; simpl; [reflexivity|].
  intros H. apply andb_prop in H. destruct H as [Hc Hq].
  rewrite Hc. now apply IH.
Qed.

Lemma trim_whitespace (q : jsstring) :
  whitespace_only q = true -> trim q = [].
Proof.
  intros H. unfold trim, trimEnd.
  now rewrite (trimStart_whitespace q H).
Qed.

Lemma own_absent (props : list (jsstring * jsval)) (key : jsstring) :
  has_key props key = false -> own props key = VUndefined.
Proof.
  induction props as [|[k v] props IH]; cbn; [reflexivity|].
  intros H. apply orb_false_elim in H. destruct H as [Hk Hr].
  rewrite Hk. now apply IH.
Qed.

(** Whatever React can render as a child converts to a string. *)
Lemma renderable_ToString :
  forall v : jsval,
    renderable v = true -> exists s, ToString v = Fulfilled s.
Proof.
  fix IH 1. intros v.
  destruct v as [| |b|r z|s|l|props]; intros H;
    try (eexists; reflexivity).
  - destruct b; eexists; reflexivity.
  - cbn in *. induction l as [|x l IHl]; [eexists; reflexivity|].
    apply andb_prop in H. destruct H as [Hx Hl].
    destruct (IH x Hx) as [sx Hsx]. destruct (IHl Hl) as [sr Hsr].
    rewrite Hsr.
    assert (Hel : exists sx',
               match x with
               | VUndefined | VNull => Fulfilled []
               | _ => ToString x
               end = Fulfilled sx').
    { clear IH IHl. destruct x; first [exists sx; exact Hsx | now exists []]. }
    destruct Hel as [sx' Hel]. rewrite Hel.
    destruct l; eexists; reflexivity.
  - discriminate H.
Qed.


(** In a page that renders with its results section shown, the prompt can
    be built. *)
Lemma page_renders_prompt (s : State) :
  page_renders s = true ->
  results_rendered s = true ->
  exists prompt, prompt_of (text s) (question s) = Fulfilled prompt.
Proof.
  unfold page_renders. intros Hr Hs. rewrite Hs in Hr.
  apply andb_prop in Hr. destruct Hr as [Hr _].
  apply andb_prop in Hr. destruct Hr as [Hr _].
  destruct (renderable_ToString (text s) Hr) as [t Ht].
  exists (prompt_text t (question s)). unfold prompt_of. now rewrite Ht.
Qed.

(** ** Running an invocation *)

Lemma absorb_finished (sys : Sys) : absorb sys (Finished (mem sys)) = sys.
Proof. now destruct sys. Qed.

Lemma call_Done (sys : Sys) : call Done sys = sys.
Proof. apply absorb_finished. Qed.

Lemma askFollowUp_empty_question (k : option jsstring) (r : State) :
  question r = [] -> askFollowUp k r = Done.
Proof. intros H. unfold askFollowUp. now rewrite H. Qed.

Lemma ask_disabled_whitespace (s : State) :
  whitespace_only (question s) = true -> ask_disabled s = true.
Proof.
  intros H. unfold ask_disabled.
  rewrite (trim_whitespace _ H). simpl.
  now rewrite orb_true_r.
Qed.

Lemma past_guard_passes (r : State) :
  past_guard r = true ->
  negb (truthy (VStr (question r))) || negb (truthy (text r)) = false.
Proof.
  unfold past_guard. intros H. apply andb_prop in H. destruct H as [Hq Ht].
  now rewrite Hq, Ht.
Qed.

(** With a key configured, a call of [askFollowUp] that passes the guard
    and builds its prompt sets [loading] and sends one request, carrying
    the prompt. *)
Lemma askFollowUp_sends (key : jsstring) (r : State) (m : Mem)
  (prompt : jsstring) :
  past_guard r = true ->
  key <> [] ->
  prompt_of (text r) (question r) = Fulfilled prompt ->
  sent (invoke (askFollowUp (Some key) r) m)
    = Some (followUp_request key prompt)
  /\ mem_of (invoke (askFollowUp (Some key) r) m)
     = {| st := setLoading true (st m); alerts := alerts m |}.
Proof.
  intros Hg Hk Hp. destruct key as [|c key]; [contradiction|].
  unfold invoke, askFollowUp. rewrite (past_guard_passes r Hg).
  cbn. rewrite Hp. cbn. split; reflexivity.
Qed.

(** A 2xx answer that parses to [data], read to its end: the invocation
    stores the text found at the reply path, or the default string when
    what is found there is falsy, and resets [loading].  [m1] is the memory
    when the answer arrives, [m2] the memory when its body has been read. *)
Lemma askFollowUp_answer
  (key : jsstring) (r : State) (m0 m1 m2 : Mem) (prompt : jsstring)
  (res : Response) (data p : jsval) :
  past_guard r = true ->
  key <> [] ->
  prompt_of (text r) (question r) = Fulfilled prompt ->
  res_ok res = true ->
  res_json res = Fulfilled data ->
  reply_path data = Fulfilled p ->
  after_body
    (after_fetch (invoke (askFollowUp (Some key) r) m0) (Fulfilled res) m1) m2
  = Finished
      {| st := setLoading false
                 (setFollowUp (if truthy p then p else VStr no_response)
                    (st m2));
         alerts := alerts m2 |}.
Proof.
  intros Hg Hk Hpr Hok Hj Hp. destruct key as [|c key]; [contradiction|].
  unfold invoke, askFollowUp. rewrite (past_guard_passes r Hg).
  cbn. rewrite Hpr. cbn. rewrite Hok. cbn. rewrite Hj, Hp. reflexivity.
Qed.

(** While [loading] holds, nothing a user can do through the page sends a
    request, suspends an invocation, raises an alert or resets the flag. *)
Lemma user_event_while_loading (k : option jsstring) (e : Event) (sys : Sys) :
  user_event e = true ->
  loading (st (mem sys)) = true ->
  loading (st (mem (step k e sys))) = true
  /\ net (step k e sys) = net sys
  /\ pending (step k e sys) = pending sys
  /\ alerts (mem (step k e sys)) = alerts (mem sys).
Proof.
  intros He Hl. destruct sys as [[s al] nt pd]. simpl in Hl.
  destruct e; try discriminate He; cbn [step mem st].
  - (* ClickUpload *)
    unfold upload_disabled. rewrite Hl, orb_true_r. cbn [negb].
    rewrite andb_false_r. cbn. auto.
  - (* ClickAsk *)
    unfold ask_disabled. rewrite Hl, orb_true_r. cbn [negb].
    rewrite andb_false_r. cbn. auto.
  - (* TypeQuestion *)
    destruct (page_renders s && results_rendered s
              && negb (question_disabled s)); cbn; auto.
  - (* SelectFile *)
    destruct (page_renders s); cbn; auto.
Qed.

Lemma user_events_while_loading (k : option jsstring) (evs : list Event) :
  forall sys : Sys,
  forallb user_event evs = true ->
  loading (st (mem sys)) = true ->
  loading (st (mem (run k evs sys))) = true
  /\ net (run k evs sys) = net sys
  /\ pending (run k evs sys) = pending sys
  /\ alerts (mem (run k evs sys)) = alerts (mem sys).
Proof.
  induction evs as [|e evs IH]; intros sys Hev Hl; cbn [run fold_left].
  - auto.
  - cbn in Hev. apply andb_prop in Hev. destruct Hev as [He Hev].
    destruct (user_event_while_loading k e sys He Hl) as (Hl1 & Hn1 & Hp1 & Ha1).
    destruct (IH (step k e sys) Hev Hl1) as (Hl2 & Hn2 & Hp2 & Ha2).
    unfold run in *. repeat split; congruence.
Qed.

(** ** C1: single flight *)

(** C1, as stated, fails: [handleUpload] has no in-flight check.  With
    [doc1] selected, calling it twice before the first call settles sends
    the upload request twice, both calls are left waiting for the provider,
    and no error is reported. *)
Lemma handleUpload_twice_sends_twice :
  net (run key1 [SelectFile [doc1]; CallHandleUpload; CallHandleUpload] start)
    = [upload_request doc1; upload_request doc1]
  /\ in_flight
       (run key1 [SelectFile [doc1]; CallHandleUpload; CallHandleUpload] start)
     = 2
  /\ alerts
       (mem (run key1 [SelectFile [doc1]; CallHandleUpload; CallHandleUpload]
               start))
     = [].
Proof. repeat split; reflexivity. Qed.

(** C1, amended: the single flight is the upload button's
    [disabled={!file || loading}].  On a page that renders, with a file
    selected and nothing loading, a click on the upload button sends
    exactly one request and sets [loading]; until that request settles,
    whatever the user does through the page (more clicks on either button,
    typing, selecting another file) sends no further request and reports no
    error. *)
Theorem upload_button_single_flight
  (k : option jsstring) (sys : Sys) (f : File) (evs : list Event) :
  page_renders (st (mem sys)) = true ->
  file (st (mem sys)) = Some f ->
  loading (st (mem sys)) = false ->
  forallb user_event evs = true ->
  net (run k (ClickUpload :: evs) sys) = net sys ++ [upload_request f]
  /\ in_flight (run k (ClickUpload :: evs) sys) = S (in_flight sys)
  /\ loading (st (mem (run k (ClickUpload :: evs) sys))) = true
  /\ alerts (mem (run k (ClickUpload :: evs) sys)) = alerts (mem sys).
Proof.
  intros Hr Hf Hl Hev.
  assert (H1 : loading (st (mem (step k ClickUpload sys))) = true
               /\ net (step k ClickUpload sys) = net sys ++ [upload_request f]
               /\ in_flight (step k ClickUpload sys) = S (in_flight sys)
               /\ alerts (mem (step k ClickUpload sys)) = alerts (mem sys)).
  { destruct sys as [[s al] nt pd]. cbn in Hr, Hf, Hl.
    cbn [step mem st]. unfold upload_disabled. rewrite Hr, Hf, Hl.
    cbn [orb negb andb]. unfold call, handleUpload. rewrite Hf. cbn.
    repeat split.
    unfold in_flight. cbn [pending].
    rewrite filter_app, length_app. cbn. lia. }
  destruct H1 as (Hl1 & Hn1 & Hi1 & Ha1).
  destruct (user_events_while_loading k evs (step k ClickUpload sys) Hev Hl1)
    as (Hl2 & Hn2 & Hp2 & Ha2).
  change (run k (ClickUpload :: evs) sys)
    with (run k evs (step k ClickUpload sys)).
  unfold in_flight in *. rewrite Hp2.
  repeat split; congruence.
Qed.

Lemma upload_button_single_flight_witness :
  net (run key1 [ClickUpload; ClickUpload; ClickAsk; ClickUpload]
         (run key1 [SelectFile [doc1]] start))
  = [upload_request doc1].
Proof.
  exact (proj1 (upload_button_single_flight key1
                  (run key1 [SelectFile [doc1]] start) doc1
                  [ClickUpload; ClickAsk; ClickUpload]
                  eq_refl eq_refl eq_refl eq_refl)).
Defined.

(** ** C3: blank questions *)

(** C3, as stated, fails: [askFollowUp] only tests [!question].  On the
    analysed page with the question "   " (three spaces) it sends the
    follow-up request, and reports no error. *)
Lemma askFollowUp_spaces_sends_request :
  net (run key1 [TypeQuestion (lit "   "); CallAskFollowUp] analyzed)
    = [ upload_request doc1;
        followUp_request (lit "k")
          (prompt_text (lit "BP: take 1 tablet twice daily") (lit "   ")) ]
  /\ in_flight (run key1 [TypeQuestion (lit "   "); CallAskFollowUp] analyzed)
     = 1
  /\ alerts (mem (run key1 [TypeQuestion (lit "   "); CallAskFollowUp]
                    analyzed)) = [].
Proof. repeat split; reflexivity. Qed.

(** C3, amended: no error is reported for a blank question, the call is
    dropped silently.  With the empty question [askFollowUp] returns at its
    guard and changes nothing; with any question that is empty or only
    whitespace the Ask button is disabled ([!question.trim()]), so a click
    on it changes nothing.  In both cases no request is sent. *)
Theorem blank_question_is_dropped (k : option jsstring) (sys : Sys) :
  whitespace_only (question (st (mem sys))) = true ->
  (question (st (mem sys)) = [] -> step k CallAskFollowUp sys = sys)
  /\ step k ClickAsk sys = sys.
Proof.
  intros Hws. split.
  - intros Hq. cbn [step]. rewrite (askFollowUp_empty_question k _ Hq).
    apply call_Done.
  - cbn [step]. rewrite (ask_disabled_whitespace _ Hws).
    cbn [negb]. now rewrite andb_false_r.
Qed.

Lemma blank_question_is_dropped_witness :
  step key1 CallAskFollowUp analyzed = analyzed
  /\ step key1 ClickAsk (run key1 [TypeQuestion (lit "   ")] analyzed)
     = run key1 [TypeQuestion (lit "   ")] analyzed.
Proof.
  split.
  - exact (proj1 (blank_question_is_dropped key1 analyzed eq_refl) eq_refl).
  - exact (proj2 (blank_question_is_dropped key1
                    (run key1 [TypeQuestion (lit "   ")] analyzed) eq_refl)).
Defined.

(** ** C4: selecting a new document *)

(** C4: in every state with no operation in flight, which is what the
    analysed state and the state a failed operation leaves are,
    [handleFileChange] finishes at once in the idle phase with the new
    selection in [file] and with [text], [analysis] and [followUp] cleared
    to the empty string; it raises no alert. *)
Theorem handleFileChange_resets (files : list File) (m : Mem) :
  phase (st m) <> Busy ->
  exists m',
    invoke (handleFileChange files) m = Finished m'
    /\ phase (st m') = Idle
    /\ file (st m') = hd_error files
    /\ text (st m') = VStr []
    /\ analysis (st m') = VStr []
    /\ followUp (st m') = VStr []
    /\ alerts m' = alerts m.
Proof.
  intros Hp. eexists. split; [reflexivity|].
  unfold phase in *. cbn.
  destruct (loading (st m)); [contradiction|]. repeat split.
Qed.

Lemma handleFileChange_resets_witness :
  exists m',
    invoke (handleFileChange [doc2]) (mem analyzed) = Finished m'
    /\ phase (st m') = Idle
    /\ file (st m') = hd_error [doc2]
    /\ text (st m') = VStr []
    /\ analysis (st m') = VStr []
    /\ followUp (st m') = VStr []
    /\ alerts m' = alerts (mem analyzed).
Proof.
  apply (handleFileChange_resets [doc2] (mem analyzed)).
  discriminate.
Defined.

(** ** C9: a provider error keeps the document *)

(** C9: with a file [f] selected, [handleUpload] sends the upload of [f]
    having changed nothing but the two flags: at the fetch the file is
    still [f].  When the provider answers with a status outside 200-299,
    the invocation finishes by raising the alert
    "Upload failed: Upload failed" and resetting [loading], and changes
    nothing else.  So when nothing else happened meanwhile, the state it
    ends in is the one before the call but for the two flags, both false:
    [f] is still selected, and the text, the analysis, the question and
    the answer are as they were.  Whatever happened meanwhile, the file is
    the one selected when the answer arrived, and no operation is left in
    flight. *)
Theorem upload_provider_error_keeps_file
  (m0 m : Mem) (f : File) (res : Response) :
  file (st m0) = Some f ->
  res_ok res = false ->
  sent (invoke (handleUpload (st m0)) m0) = Some (upload_request f)
  /\ mem_of (invoke (handleUpload (st m0)) m0)
     = {| st := setUploadComplete false (setLoading true (st m0));
          alerts := alerts m0 |}
  /\ after_fetch (invoke (handleUpload (st m0)) m0) (Fulfilled res)
       (mem_of (invoke (handleUpload (st m0)) m0))
     = Finished
         {| st := {| file := Some f; text := text (st m0);
                     analysis := analysis (st m0);
                     question := question (st m0);
                     followUp := followUp (st m0); loading := false;
                     uploadComplete := false |};
            alerts := alerts m0 ++ [lit "Upload failed: Upload failed"] |}
  /\ after_fetch (invoke (handleUpload (st m0)) m0) (Fulfilled res) m
     = Finished {| st := setLoading false (st m);
                   alerts := alerts m ++ [lit "Upload failed: Upload failed"] |}
  /\ file (setLoading false (st m)) = file (st m)
  /\ phase (setLoading false (st m)) <> Busy.
Proof.
  intros Hf Hok. destruct m0 as [[fl tx an qu fo ld uc] al0].
  cbn in Hf. subst fl. unfold invoke, handleUpload. cbn.
  rewrite Hok. cbn. repeat split.
  unfold phase. cbn. destruct (uploadComplete (st m)); discriminate.
Qed.

Lemma upload_provider_error_keeps_file_witness :
  after_fetch
    (invoke (handleUpload (st (mem (run key1 [SelectFile [doc1]] start))))
       (mem (run key1 [SelectFile [doc1]] start)))
    (Fulfilled (error_response 500 (lit "Internal Server Error")))
    (mem_of
       (invoke (handleUpload (st (mem (run key1 [SelectFile [doc1]] start))))
          (mem (run key1 [SelectFile [doc1]] start))))
  = Finished
      {| st := {| file := Some doc1; text := VStr []; analysis := VStr [];
                  question := []; followUp := VStr []; loading := false;
                  uploadComplete := false |};
         alerts := [lit "Upload failed: Upload failed"] |}.
Proof.
  exact (proj1 (proj2 (proj2 (upload_provider_error_keeps_file
           (mem (run key1 [SelectFile [doc1]] start))
           (mem (run key1 [SelectFile [doc1]; ClickUpload] start))
           doc1
           (error_response 500 (lit "Internal Server Error"))
           eq_refl eq_refl)))).
Defined.

(** ** C10: the loading bracket *)





(** ** C6: an analysis response with a field missing *)

(** C6, as stated, fails: [handleUpload] stores whatever [data.text] and
    [data.analysis] evaluate to.  A 200 response [{text: ...}] without
    [analysis] is taken as a success: the text is stored, [analysis]
    becomes [undefined], the upload is marked complete and no alert is
    raised. *)
Lemma partial_analysis_is_stored :
  st (mem (run key1
             [ SelectFile [doc1]; ClickUpload;
               FetchSettles 0 (Fulfilled (ok_json partial_data)); BodyRead 0 ]
             start))
  = {| file := Some doc1; text := VStr (lit "Paracetamol 500mg");
       analysis := VUndefined; question := []; followUp := VStr [];
       loading := false; uploadComplete := true |}
  /\ alerts (mem (run key1
                    [ SelectFile [doc1]; ClickUpload;
                      FetchSettles 0 (Fulfilled (ok_json partial_data));
                      BodyRead 0 ]
                    start)) = [].
Proof. split; reflexivity. Qed.

(** C6, amended: a 2xx analysis response that parses to an object is never
    refused for a missing field.  The invocation stores the object's [text]
    and [analysis] properties as they are, [undefined] for one that is
    absent, clears [followUp], marks the upload complete, resets [loading]
    and raises no alert. *)
Theorem missing_field_is_stored_undefined
  (r : State) (f : File) (m0 m1 m2 : Mem) (res : Response)
  (props : list (jsstring * jsval)) :
  file r = Some f ->
  res_ok res = true ->
  res_json res = Fulfilled (VObj props) ->
  after_body (after_fetch (invoke (handleUpload r) m0) (Fulfilled res) m1) m2
  = Finished
      {| st := setLoading false
                 (setUploadComplete true
                    (setFollowUp (VStr [])
                       (setAnalysis (own props (lit "analysis"))
                          (setText (own props (lit "text")) (st m2)))));
         alerts := alerts m2 |}
  /\ (has_key props (lit "text") = false ->
      own props (lit "text") = VUndefined)
  /\ (has_key props (lit "analysis") = false ->
      own props (lit "analysis") = VUndefined).
Proof.
  intros Hf Hok Hj. split; [|split; apply own_absent].
  unfold invoke, handleUpload. rewrite Hf. cbn.
  rewrite Hok. cbn. rewrite Hj. reflexivity.
Qed.

Lemma missing_field_is_stored_undefined_witness :
  after_body
    (after_fetch
       (invoke (handleUpload (st (mem (run key1 [SelectFile [doc1]] start))))
          (mem (run key1 [SelectFile [doc1]] start)))
       (Fulfilled (ok_json partial_data))
       (mem (run key1 [SelectFile [doc1]; ClickUpload] start)))
    (mem (run key1 [SelectFile [doc1]; ClickUpload] start))
  = Finished
      {| st := {| file := Some doc1; text := VStr (lit "Paracetamol 500mg");
                  analysis := VUndefined; question := [];
                  followUp := VStr []; loading := false;
                  uploadComplete := true |};
         alerts := [] |}
  /\ own [ (lit "text", VStr (lit "Paracetamol 500mg")) ] (lit "analysis")
     = VUndefined.
Proof.
  split.
  - exact (proj1 (missing_field_is_stored_undefined
                    (st (mem (run key1 [SelectFile [doc1]] start))) doc1
                    (mem (run key1 [SelectFile [doc1]] start))
                    (mem (run key1 [SelectFile [doc1]; ClickUpload] start))
                    (mem (run key1 [SelectFile [doc1]; ClickUpload] start))
                    (ok_json partial_data)
                    [ (lit "text", VStr (lit "Paracetamol 500mg")) ]
                    eq_refl eq_refl eq_refl)).
  - exact (proj2 (proj2 (missing_field_is_stored_undefined
                    (st (mem (run key1 [SelectFile [doc1]] start))) doc1
                    (mem (run key1 [SelectFile [doc1]] start))
                    (mem (run key1 [SelectFile [doc1]; ClickUpload] start))
                    (mem (run key1 [SelectFile [doc1]; ClickUpload] start))
                    (ok_json partial_data)
                    [ (lit "text", VStr (lit "Paracetamol 500mg")) ]
                    eq_refl eq_refl eq_refl)) eq_refl).
Defined.

(** ** C7: a follow-up response without the reply path *)

(** C7, as stated, fails: on the analysed page, a 200 follow-up response
    [{}] is taken as a success: [followUp] becomes the default string
    "No response received" and no alert is raised. *)
Lemma missing_reply_gets_default :
  followUp
    (st (mem (run key1
                [ TypeQuestion (lit "Can I take this with food?"); ClickAsk;
                  FetchSettles 0 (Fulfilled (ok_json (VObj []))); BodyRead 0 ]
                analyzed)))
  = VStr (lit "No response received")
  /\ alerts
       (mem (run key1
               [ TypeQuestion (lit "Can I take this with food?"); ClickAsk;
                 FetchSettles 0 (Fulfilled (ok_json (VObj []))); BodyRead 0 ]
               analyzed)) = [].
Proof. split; reflexivity. Qed.

(** C7, amended: when a 2xx follow-up response parses to a value other than
    [null] in which the path [candidates[0].content.parts[0].text] is
    absent, or holds a falsy value, the ask operation does not fail: it
    stores the default answer "No response received", resets [loading] and
    raises no alert. *)
Theorem missing_reply_is_defaulted
  (key : jsstring) (r : State) (m0 m1 m2 : Mem) (prompt : jsstring)
  (res : Response) (data p : jsval) :
  past_guard r = true ->
  key <> [] ->
  prompt_of (text r) (question r) = Fulfilled prompt ->
  res_ok res = true ->
  res_json res = Fulfilled data ->
  reply_path data = Fulfilled p ->
  truthy p = false ->
  after_body
    (after_fetch (invoke (askFollowUp (Some key) r) m0) (Fulfilled res) m1) m2
  = Finished
      {| st := setLoading false
                 (setFollowUp (VStr (lit "No response received")) (st m2));
         alerts := alerts m2 |}.
Proof.
  intros Hg Hk Hpr Hok Hj Hp Ht.
  rewrite (askFollowUp_answer key r m0 m1 m2 prompt res data p
             Hg Hk Hpr Hok Hj Hp).
  now rewrite Ht.
Qed.

Lemma missing_reply_is_defaulted_witness :
  after_body
    (after_fetch
       (invoke (askFollowUp (Some (lit "k"))
                  (st (mem (run key1 [TypeQuestion (lit "Dose?")] analyzed))))
          (mem (run key1 [TypeQuestion (lit "Dose?")] analyzed)))
       (Fulfilled (ok_json (VObj [(lit "candidates", VArr [])])))
       (mem (run key1 [TypeQuestion (lit "Dose?"); ClickAsk] analyzed)))
    (mem (run key1 [TypeQuestion (lit "Dose?"); ClickAsk] analyzed))
  = Finished
      {| st := setLoading false
                 (setFollowUp (VStr (lit "No response received"))
                    (st (mem (run key1 [TypeQuestion (lit "Dose?"); ClickAsk]
                                analyzed))));
         alerts := [] |}.
Proof.
  apply (missing_reply_is_defaulted (lit "k")
           (st (mem (run key1 [TypeQuestion (lit "Dose?")] analyzed)))
           (mem (run key1 [TypeQuestion (lit "Dose?")] analyzed))
           (mem (run key1 [TypeQuestion (lit "Dose?"); ClickAsk] analyzed))
           (mem (run key1 [TypeQuestion (lit "Dose?"); ClickAsk] analyzed))
           (prompt_text (lit "BP: take 1 tablet twice daily") (lit "Dose?"))
           (ok_json (VObj [(lit "candidates", VArr [])]))
           (VObj [(lit "candidates", VArr [])]) VUndefined);
    try reflexivity.
  discriminate.
Defined.

(** ** C5: what a successful follow-up leaves *)

(** C5, as stated, fails: there is one [followUp] cell, not a sequence.
    After two questions answered in turn, the page holds the second answer
    only; its state is the very state that asking the second question alone
    leaves, so nothing of the first exchange is kept. *)
Lemma second_answer_replaces_first :
  followUp
    (st (mem (run key1
                [ TypeQuestion (lit "Can I take this with food?"); ClickAsk;
                  FetchSettles 0
                    (Fulfilled (ok_json (answer_data (lit "Yes, with meals."))));
                  BodyRead 0;
                  TypeQuestion (lit "Any side effects?"); ClickAsk;
                  FetchSettles 0
                    (Fulfilled (ok_json (answer_data (lit "Dizziness."))));
                  BodyRead 0 ]
                analyzed)))
  = VStr (lit "Dizziness.")
  /\ st (mem (run key1
                [ TypeQuestion (lit "Can I take this with food?"); ClickAsk;
                  FetchSettles 0
                    (Fulfilled (ok_json (answer_data (lit "Yes, with meals."))));
                  BodyRead 0;
                  TypeQuestion (lit "Any side effects?"); ClickAsk;
                  FetchSettles 0
                    (Fulfilled (ok_json (answer_data (lit "Dizziness."))));
                  BodyRead 0 ]
                analyzed))
     = st (mem (run key1
                  [ TypeQuestion (lit "Any side effects?"); ClickAsk;
                    FetchSettles 0
                      (Fulfilled (ok_json (answer_data (lit "Dizziness."))));
                    BodyRead 0 ]
                  analyzed)).
Proof. split; reflexivity. Qed.

(** C5, amended: a successful follow-up, whose 2xx response carries a
    non-empty text [answer] at the reply path, stores exactly that text in
    the one [followUp] cell, in place of whatever answer was there; it
    resets [loading] and leaves every other cell, the question included, as
    it was.  Only the latest answer is kept, and it is not paired with its
    question. *)
Theorem followUp_holds_latest_answer
  (key : jsstring) (r : State) (m0 m1 m2 : Mem) (prompt : jsstring)
  (res : Response) (data : jsval) (answer : jsstring) :
  past_guard r = true ->
  key <> [] ->
  prompt_of (text r) (question r) = Fulfilled prompt ->
  res_ok res = true ->
  res_json res = Fulfilled data ->
  reply_path data = Fulfilled (VStr answer) ->
  answer <> [] ->
  after_body
    (after_fetch (invoke (askFollowUp (Some key) r) m0) (Fulfilled res) m1) m2
  = Finished
      {| st := {| file := file (st m2); text := text (st m2);
                  analysis := analysis (st m2); question := question (st m2);
                  followUp := VStr answer; loading := false;
                  uploadComplete := uploadComplete (st m2) |};
         alerts := alerts m2 |}.
Proof.
  intros Hg Hk Hpr Hok Hj Hp Ha.
  rewrite (askFollowUp_answer key r m0 m1 m2 prompt res data (VStr answer)
             Hg Hk Hpr Hok Hj Hp).
  destruct answer; [contradiction|]. reflexivity.
Qed.

Lemma followUp_holds_latest_answer_witness :
  after_body
    (after_fetch
       (invoke (askFollowUp (Some (lit "k"))
                  (st (mem (run key1 [TypeQuestion (lit "Dose?")] analyzed))))
          (mem (run key1 [TypeQuestion (lit "Dose?")] analyzed)))
       (Fulfilled (ok_json (answer_data (lit "One tablet."))))
       (mem (run key1 [TypeQuestion (lit "Dose?"); ClickAsk] analyzed)))
    (mem (run key1 [TypeQuestion (lit "Dose?"); ClickAsk] analyzed))
  = Finished
      {| st := {| file := Some doc1;
                  text := VStr (lit "BP: take 1 tablet twice daily");
                  analysis := VStr (lit "Antihypertensive");
                  question := lit "Dose?";
                  followUp := VStr (lit "One tablet."); loading := false;
                  uploadComplete := true |};
         alerts := [] |}.
Proof.
  apply (followUp_holds_latest_answer (lit "k")
           (st (mem (run key1 [TypeQuestion (lit "Dose?")] analyzed)))
           (mem (run key1 [TypeQuestion (lit "Dose?")] analyzed))
           (mem (run key1 [TypeQuestion (lit "Dose?"); ClickAsk] analyzed))
           (mem (run key1 [TypeQuestion (lit "Dose?"); ClickAsk] analyzed))
           (prompt_text (lit "BP: take 1 tablet twice daily") (lit "Dose?"))
           (ok_json (answer_data (lit "One tablet.")))
           (answer_data (lit "One tablet.")) (lit "One tablet."));
    try reflexivity; discriminate.
Defined.

(** ** C2: an answer that arrives after a new document was selected *)

(** C2, as stated, fails: nothing ties an answer to the document it was
    asked about.  A question is asked on the analysed page, [doc2] is
    selected before the provider answers, then the answer arrives: it is
    stored in [followUp], in a state whose document is [doc2]. *)
Lemma stale_answer_is_installed :
  followUp
    (st (mem (run key1
                [ TypeQuestion (lit "Can I take this with food?"); ClickAsk;
                  SelectFile [doc2];
                  FetchSettles 0
                    (Fulfilled (ok_json (answer_data (lit "Yes, with meals."))));
                  BodyRead 0 ]
                analyzed)))
  = VStr (lit "Yes, with meals.")
  /\ file
       (st (mem (run key1
                   [ TypeQuestion (lit "Can I take this with food?"); ClickAsk;
                     SelectFile [doc2];
                     FetchSettles 0
                       (Fulfilled
                          (ok_json (answer_data (lit "Yes, with meals."))));
                     BodyRead 0 ]
                   analyzed)))
     = Some doc2.
Proof. split; reflexivity. Qed.

(** C2, amended: when a follow-up is in flight and a new document is
    selected before the provider responds, the answer that arrives is
    stored in [followUp] all the same; it is not rendered in the state the
    invocation finishes in, because the selection cleared [text] and the
    answer panel is rendered only under a truthy [text]. *)
Theorem stale_answer_is_stored_unrendered
  (key : jsstring) (r : State) (m0 m1 : Mem) (prompt : jsstring)
  (files : list File) (res : Response) (data p : jsval) :
  past_guard r = true ->
  key <> [] ->
  prompt_of (text r) (question r) = Fulfilled prompt ->
  res_ok res = true ->
  res_json res = Fulfilled data ->
  reply_path data = Fulfilled p ->
  truthy p = true ->
  exists m3 : Mem,
    after_body
      (after_fetch (invoke (askFollowUp (Some key) r) m0) (Fulfilled res)
         (mem_of (invoke (handleFileChange files) m1)))
      (mem_of (invoke (handleFileChange files) m1))
    = Finished m3
    /\ followUp (st m3) = p
    /\ file (st m3) = hd_error files
    /\ text (st m3) = VStr []
    /\ shown_followUp (st m3) = None.
Proof.
  intros Hg Hk Hpr Hok Hj Hp Ht.
  rewrite (askFollowUp_answer key r m0 _ _ prompt res data p
             Hg Hk Hpr Hok Hj Hp).
  rewrite Ht. eexists. split; [reflexivity|].
  cbn. repeat split.
Qed.

Lemma stale_answer_is_stored_unrendered_witness :
  exists m3 : Mem,
    after_body
      (after_fetch
         (invoke (askFollowUp (Some (lit "k"))
                    (st (mem (run key1 [TypeQuestion (lit "Dose?")] analyzed))))
            (mem (run key1 [TypeQuestion (lit "Dose?")] analyzed)))
         (Fulfilled (ok_json (answer_data (lit "One tablet."))))
         (mem_of (invoke (handleFileChange [doc2])
                    (mem (run key1 [TypeQuestion (lit "Dose?"); ClickAsk]
                            analyzed)))))
      (mem_of (invoke (handleFileChange [doc2])
                 (mem (run key1 [TypeQuestion (lit "Dose?"); ClickAsk]
                         analyzed))))
    = Finished m3
    /\ followUp (st m3) = VStr (lit "One tablet.")
    /\ file (st m3) = hd_error [doc2]
    /\ text (st m3) = VStr []
    /\ shown_followUp (st m3) = None.
Proof.
  apply (stale_answer_is_stored_unrendered (lit "k")
           (st (mem (run key1 [TypeQuestion (lit "Dose?")] analyzed)))
           (mem (run key1 [TypeQuestion (lit "Dose?")] analyzed))
           (mem (run key1 [TypeQuestion (lit "Dose?"); ClickAsk] analyzed))
           (prompt_text (lit "BP: take 1 tablet twice daily") (lit "Dose?"))
           [doc2]
           (ok_json (answer_data (lit "One tablet.")))
           (answer_data (lit "One tablet.")) (VStr (lit "One tablet.")));
    try reflexivity; discriminate.
Defined.

(** ** C8: the prompt and its size *)




(** ** Single flight through the page *)

Ltac orderly_steps :=
  repeat
    (cbn;
     match goal with
     | H : loading (st ?m) = _ |- orderly (Finished ?m) =>
         apply orderly_finished; exact H
     | |- orderly (Finished _) => apply orderly_finished; reflexivity
     | |- orderly (OnFetch _ _ _) =>
         apply orderly_fetch; [reflexivity | intros [?res | ?e] ?m ?Hl]
     | H : loading (st ?m) = true |- orderly (OnBody ?m _) =>
         apply orderly_body; [exact H | intros ?m ?Hl]
     | |- context [negb (res_ok ?res)] => destruct (res_ok res)
     | |- context [res_json ?res] => destruct (res_json res) as [?data | ?e]
     | |- context [res_text ?res] => destruct (res_text res) as [?t | ?e]
     | |- context [getField ?d _] => destruct d
     | |- context [reply_path ?d] => destruct (reply_path d) as [?p | ?e]
     end).

Lemma handleUpload_orderly (r : State) (m : Mem) :
  loading (st m) = false -> orderly (invoke (handleUpload r) m).
Proof.
  intros Hl. unfold invoke, handleUpload.
  destruct (file r) as [f|]; orderly_steps.
Qed.

Lemma askFollowUp_orderly (k : option jsstring) (r : State) (m : Mem)
  (prompt : jsstring) :
  loading (st m) = false ->
  prompt_of (text r) (question r) = Fulfilled prompt ->
  orderly (invoke (askFollowUp k r) m).
Proof.
  intros Hl Hp. unfold invoke, askFollowUp.
  destruct (negb (truthy (VStr (question r))) || negb (truthy (text r)));
    [orderly_steps|].
  cbn. rewrite Hp.
  destruct k as [[|c key]|]; orderly_steps.
Qed.

Lemma absorb_orderly (m : Mem) (nt : list Request) (s : Step) :
  orderly s ->
  single_flight (absorb {| mem := m; net := nt; pending := [] |} s).
Proof.
  intros H. destruct H as [m1 Hl | m1 req resume Hl Hr | m1 resume Hl Hr]; cbn.
  - left. auto.
  - right. split; [exact Hl|]. exists (PFetch resume). auto.
  - right. split; [exact Hl|]. exists (PBody resume). auto.
Qed.

Ltac same_flight :=
  right; cbn;
  match goal with
  | Hl : loading _ = true, Ho : orderly_pending _ |- _ =>
      split; [exact Hl | eexists; split; [reflexivity | exact Ho]]
  end.

Lemma single_flight_step (k : option jsstring) (e : Event) (sys : Sys) :
  page_event e = true -> single_flight sys -> single_flight (step k e sys).
Proof.
  intros He Hs. destruct sys as [[s al] nt pd].
  destruct e; try discriminate He; cbn [step mem st].
  - (* ClickUpload *)
    destruct (page_renders s && negb (upload_disabled s)) eqn:Hen;
      [|exact Hs].
    destruct Hs as [[Hl Hp] | [Hl Hp]]; cbn in Hl, Hp.
    + subst pd. unfold call. cbn [mem].
      apply absorb_orderly. now apply handleUpload_orderly.
    + unfold upload_disabled in Hen. rewrite Hl, orb_true_r in Hen.
      cbn in Hen. rewrite andb_false_r in Hen. discriminate.
  - (* ClickAsk *)
    destruct (page_renders s && results_rendered s && negb (ask_disabled s))
      eqn:Hen; [|exact Hs].
    apply andb_prop in Hen. destruct Hen as [Hen Hdis].
    apply andb_prop in Hen. destruct Hen as [Hren Hres].
    destruct Hs as [[Hl Hp] | [Hl Hp]]; cbn in Hl, Hp.
    + subst pd. unfold call. cbn [mem].
      destruct (page_renders_prompt s Hren Hres) as [prompt Hpr].
      apply absorb_orderly. now apply (askFollowUp_orderly k s _ prompt).
    + unfold ask_disabled in Hdis. rewrite Hl, orb_true_r in Hdis.
      discriminate.
  - (* TypeQuestion *)
    destruct (page_renders s && results_rendered s
              && negb (question_disabled s)); [|exact Hs].
    destruct Hs as [[Hl Hp] | [Hl Hp]]; cbn in *; [left | right]; auto.
  - (* SelectFile *)
    destruct (page_renders s); [|exact Hs].
    destruct Hs as [[Hl Hp] | [Hl Hp]]; cbn in *; [left | right]; auto.
  - (* FetchSettles *)
    destruct Hs as [[Hl Hp] | [Hl (p & Hp & Ho)]]; cbn in Hl, Hp; subst pd.
    + cbn [pending]. destruct i; cbn; left; auto.
    + cbn [pending].
      destruct i as [|i]; [|destruct i; cbn; same_flight].
      destruct p as [resume | resume]; cbn [nth_error]; [|same_flight].
      cbn [drop_nth firstn skipn app mem net].
      apply absorb_orderly. apply Ho. exact Hl.
  - (* BodyRead *)
    destruct Hs as [[Hl Hp] | [Hl (p & Hp & Ho)]]; cbn in Hl, Hp; subst pd.
    + cbn [pending]. destruct i; cbn; left; auto.
    + cbn [pending].
      destruct i as [|i]; [|destruct i; cbn; same_flight].
      destruct p as [resume | resume]; cbn [nth_error]; [same_flight|].
      cbn [drop_nth firstn skipn app mem net].
      apply absorb_orderly. apply Ho. exact Hl.
Qed.

(** X13: whatever happens to the rendered page from its first render on
    (clicks, typing, file selections, provider responses in any order), at
    most one request is waiting for a provider, and [loading] tells
    whether an invocation is suspended. *)
Lemma page_single_flight (k : option jsstring) (evs : list Event) :
  forallb page_event evs = true ->
  single_flight (run k evs start)
  /\ in_flight (run k evs start) <= 1.
Proof.
  intros Hev.
  assert (H : forall sys, single_flight sys -> single_flight (run k evs sys)).
  { clear - Hev. induction evs as [|e evs IH]; intros sys Hs; [exact Hs|].
    cbn in Hev. apply andb_prop in Hev. destruct Hev as [He Hev].
    cbn [run fold_left]. apply (IH Hev).
    now apply single_flight_step. }
  assert (Hst : single_flight start) by (left; split; reflexivity).
  specialize (H start Hst). split; [exact H|].
  unfold in_flight.
  destruct H as [[_ Hp] | [_ (p & Hp & _)]]; rewrite Hp; cbn.
  - lia.
  - destruct (is_fetch p); cbn; lia.
Qed.

(** * Further properties of the component *)

(** ** What the handlers never touch *)

Ltac keeps_steps :=
  repeat
    (cbn;
     match goal with
     | |- keeps _ _ (Finished _) => apply keeps_finished; cbn; repeat split
     | |- keeps _ _ (OnFetch _ _ _) =>
         apply keeps_fetch; [cbn; repeat split | intros [?res | ?e] ?m]
     | |- keeps _ _ (OnBody _ _) =>
         apply keeps_body; [cbn; repeat split | intros ?m]
     | |- context [negb (res_ok ?res)] => destruct (res_ok res)
     | |- context [res_json ?res] => destruct (res_json res) as [?data | ?e]
     | |- context [res_text ?res] => destruct (res_text res) as [?t | ?e]
     | |- context [getField ?d _] => destruct d
     | |- context [reply_path ?d] => destruct (reply_path d) as [?p | ?e]
     | |- context [prompt_of ?t ?q] => destruct (prompt_of t q) as [?p | ?e]
     end).

(** X1: whatever the provider answers and whenever it does, an invocation
    of [handleUpload] never changes the selected file nor the typed
    question: at every point where it suspends or ends, both are what they
    were when it was started or last resumed. *)
Theorem handleUpload_keeps_file_and_question (r : State) (m : Mem) :
  keeps upload_frame m (invoke (handleUpload r) m).
Proof.
  unfold invoke, handleUpload, upload_frame.
  destruct (file r) as [f|]; keeps_steps.
Qed.

(** X2: whatever the key, the provider's answer and the time it takes, an
    invocation of [askFollowUp] writes nothing but [followUp] and
    [loading]: the file, the extracted text, the analysis, the question and
    [uploadComplete] are left as they were, also when it fails. *)
Theorem askFollowUp_writes_only_followUp
  (k : option jsstring) (r : State) (m : Mem) :
  keeps followUp_frame m (invoke (askFollowUp k r) m).
Proof.
  unfold invoke, askFollowUp, followUp_frame.
  destruct (negb (truthy (VStr (question r))) || negb (truthy (text r)));
    [keeps_steps|].
  cbn. destruct (prompt_of (text r) (question r)) as [prompt | e];
    [|keeps_steps].
  destruct k as [[|c key]|]; keeps_steps.
Qed.

(** ** All or nothing *)

Ltac nothing_stored :=
  eexists; (split; [reflexivity|]); cbn;
  do 2 eexists; (split; [|split; reflexivity]); solve [auto].



(** X4: a follow-up is all or nothing.  For a call of [askFollowUp] that
    passes its guard and builds its prompt, whatever the key and whatever
    the fetch settles with, the invocation ends.  When a key is configured
    and the response is 2xx with a body that parses to a value other than
    [null], a truthy answer is stored in [followUp] and no alert is raised.
    In every other case [followUp] keeps the answer it had: the state is
    the one of the moment the failure showed, with [loading] reset, and
    exactly one alert, which starts with "Follow-up failed: ", is added. *)
Theorem followUp_all_or_nothing
  (k : option jsstring) (r : State) (m0 m1 m2 : Mem) (prompt : jsstring)
  (o : settled Response) :
  past_guard r = true ->
  prompt_of (text r) (question r) = Fulfilled prompt ->
  exists m' : Mem,
    settle (invoke (askFollowUp k r) m0) o m1 m2 = Finished m'
    /\ if match k with Some (_ :: _) => usable o | _ => false end then
         (exists reply : jsval,
            truthy reply = true
            /\ st m' = setLoading false (setFollowUp reply (st m2)))
         /\ alerts m' = alerts m2
       else
         exists (mf : Mem) (msg : jsstring),
           (mf = m0 \/ mf = m1 \/ mf = m2)
           /\ st m' = setLoading false (st mf)
           /\ alerts m' = alerts mf ++ [lit "Follow-up failed: " ++ msg].
Proof.
  intros Hg Hp. unfold settle, invoke, askFollowUp, usable.
  rewrite (past_guard_passes r Hg). cbn. rewrite Hp.
  destruct k as [[|c key]|]; cbn; [nothing_stored | | nothing_stored].
  destruct o as [res | e]; cbn; [|nothing_stored].
  destruct (res_ok res); cbn.
  - destruct (res_json res) as [data | e]; cbn; [|nothing_stored].
    destruct data; unfold reply_path; cbn; try nothing_stored;
      match goal with
      | |- context [truthy ?p] =>
          destruct (truthy p) eqn:Ht;
          (eexists; split; [reflexivity|]; cbn;
           split; [eexists; split; [|reflexivity] | reflexivity]);
          (exact Ht || reflexivity)
      | |- _ =>
          (eexists; split; [reflexivity|]; cbn;
           split; [eexists; split; [|reflexivity] | reflexivity]);
          reflexivity
      end.
  - destruct (res_text res) as [t | e]; cbn; nothing_stored.
Qed.

Lemma followUp_all_or_nothing_witness :
  exists m' : Mem,
    settle
      (invoke (askFollowUp None
                 (st (mem (run key1 [TypeQuestion (lit "Dose?")] analyzed))))
         (mem (run key1 [TypeQuestion (lit "Dose?")] analyzed)))
      (Fulfilled (ok_json (answer_data (lit "One tablet."))))
      (mem (run key1 [TypeQuestion (lit "Dose?")] analyzed))
      (mem (run key1 [TypeQuestion (lit "Dose?")] analyzed))
    = Finished m'
    /\ exists (mf : Mem) (msg : jsstring),
         (mf = mem (run key1 [TypeQuestion (lit "Dose?")] analyzed)
          \/ mf = mem (run key1 [TypeQuestion (lit "Dose?")] analyzed)
          \/ mf = mem (run key1 [TypeQuestion (lit "Dose?")] analyzed))
         /\ st m' = setLoading false (st mf)
         /\ alerts m' = alerts mf ++ [lit "Follow-up failed: " ++ msg].
Proof.
  exact (followUp_all_or_nothing None
           (st (mem (run key1 [TypeQuestion (lit "Dose?")] analyzed)))
           (mem (run key1 [TypeQuestion (lit "Dose?")] analyzed))
           (mem (run key1 [TypeQuestion (lit "Dose?")] analyzed))
           (mem (run key1 [TypeQuestion (lit "Dose?")] analyzed))
           (prompt_text (lit "BP: take 1 tablet twice daily") (lit "Dose?"))
           (Fulfilled (ok_json (answer_data (lit "One tablet."))))
           eq_refl eq_refl).
Defined.

(** ** A response that arrives after another file was selected *)

(** X5: selecting another file does not cancel an upload in flight, and
    its response is installed all the same.  When the files [files] are
    selected while the upload of the earlier file is waiting, and the
    provider then answers 2xx with an object, the page ends up holding the
    new selection together with the text and the analysis of the earlier
    file, marked as a complete upload. *)
Theorem stale_analysis_is_installed
  (r : State) (f : File) (m0 m1 : Mem) (files : list File)
  (res : Response) (props : list (jsstring * jsval)) :
  file r = Some f ->
  res_ok res = true ->
  res_json res = Fulfilled (VObj props) ->
  exists m3 : Mem,
    settle (invoke (handleUpload r) m0) (Fulfilled res)
      (mem_of (invoke (handleFileChange files) m1))
      (mem_of (invoke (handleFileChange files) m1))
    = Finished m3
    /\ file (st m3) = hd_error files
    /\ text (st m3) = own props (lit "text")
    /\ analysis (st m3) = own props (lit "analysis")
    /\ uploadComplete (st m3) = true
    /\ loading (st m3) = false
    /\ alerts m3 = alerts m1.
Proof.
  intros Hf Hok Hj. unfold settle, invoke, handleUpload. rewrite Hf. cbn.
  rewrite Hok. cbn. rewrite Hj. cbn.
  eexists. split; [reflexivity|]. cbn. repeat split.
Qed.

Lemma stale_analysis_is_installed_witness :
  exists m3 : Mem,
    settle
      (invoke (handleUpload (st (mem (run key1 [SelectFile [doc1]] start))))
         (mem (run key1 [SelectFile [doc1]] start)))
      (Fulfilled (ok_json analysis_data))
      (mem_of (invoke (handleFileChange [doc2])
                 (mem (run key1 [SelectFile [doc1]; ClickUpload] start))))
      (mem_of (invoke (handleFileChange [doc2])
                 (mem (run key1 [SelectFile [doc1]; ClickUpload] start))))
    = Finished m3
    /\ file (st m3) = hd_error [doc2]
    /\ text (st m3) = VStr (lit "BP: take 1 tablet twice daily")
    /\ analysis (st m3) = VStr (lit "Antihypertensive")
    /\ uploadComplete (st m3) = true
    /\ loading (st m3) = false
    /\ alerts m3 = [].
Proof.
  exact (stale_analysis_is_installed
           (st (mem (run key1 [SelectFile [doc1]] start))) doc1
           (mem (run key1 [SelectFile [doc1]] start))
           (mem (run key1 [SelectFile [doc1]; ClickUpload] start))
           [doc2] (ok_json analysis_data)
           [ (lit "text", VStr (lit "BP: take 1 tablet twice daily"));
             (lit "analysis", VStr (lit "Antihypertensive")) ]
           eq_refl eq_refl eq_refl).
Defined.

(** ** After a file is selected *)

Lemma awaiting_user_event (k : option jsstring) (e : Event) (sys : Sys) :
  user_event e = true ->
  awaiting_analysis (st (mem sys)) ->
  awaiting_analysis (st (mem (step k e sys)))
  /\ exists fs : list File,
       net (step k e sys) = net sys ++ map upload_request fs.
Proof.
  intros He [Hu Ht]. destruct sys as [[s al] nt pd]. cbn in Hu, Ht.
  assert (Hsame : awaiting_analysis s
                  /\ exists fs : list File, nt = nt ++ map upload_request fs).
  { split; [split; assumption|]. exists []. cbn. now rewrite app_nil_r. }
  destruct e; try discriminate He; cbn [step mem st].
  - (* ClickUpload *)
    destruct (page_renders s && negb (upload_disabled s)); [|exact Hsame].
    unfold call, invoke, handleUpload. cbn [mem].
    destruct (file s) as [f|]; cbn; [|exact Hsame].
    split; [unfold awaiting_analysis; cbn; auto|]. now exists [f].
  - (* ClickAsk *)
    unfold results_rendered. rewrite Ht, andb_false_r. exact Hsame.
  - (* TypeQuestion *)
    unfold results_rendered. rewrite Ht, andb_false_r. exact Hsame.
  - (* SelectFile *)
    destruct (page_renders s); [|exact Hsame]. cbn.
    split; [split; reflexivity|]. exists []. cbn. now rewrite app_nil_r.
Qed.

(** X6: after a file is selected on a page that renders, nothing the user
    does through the page sends a follow-up request before a provider
    response arrives: whatever sequence of clicks, typing and further
    selections follows, every request it adds is an upload request. *)
Theorem no_followUp_after_selection
  (k : option jsstring) (sys : Sys) (files : list File) (evs : list Event) :
  page_renders (st (mem sys)) = true ->
  forallb user_event evs = true ->
  exists fs : list File,
    net (run k (SelectFile files :: evs) sys)
    = net sys ++ map upload_request fs.
Proof.
  intros Hr Hev.
  assert (H : forall s0 : Sys,
             awaiting_analysis (st (mem s0)) ->
             exists fs, net (run k evs s0) = net s0 ++ map upload_request fs).
  { clear - Hev. induction evs as [|e evs IH]; intros s0 Hs0.
    - exists []. cbn. now rewrite app_nil_r.
    - cbn in Hev. apply andb_prop in Hev. destruct Hev as [He Hev].
      destruct (awaiting_user_event k e s0 He Hs0) as [Hs1 [fs1 Hn1]].
      destruct (IH Hev (step k e s0) Hs1) as [fs2 Hn2].
      exists (fs1 ++ fs2). cbn [run fold_left]. unfold run in Hn2.
      rewrite Hn2, Hn1, map_app, app_assoc. reflexivity. }
  change (run k (SelectFile files :: evs) sys)
    with (run k evs (step k (SelectFile files) sys)).
  destruct (H (step k (SelectFile files) sys)) as [fs Hfs].
  - destruct sys as [[s al] nt pd]. cbn in Hr. cbn [step mem st].
    rewrite Hr. cbn. split; reflexivity.
  - exists fs. rewrite Hfs. f_equal.
    destruct sys as [[s al] nt pd]. cbn in Hr. cbn [step mem st].
    rewrite Hr. reflexivity.
Qed.

Lemma no_followUp_after_selection_witness :
  exists fs : list File,
    net (run key1
           [ SelectFile [doc2]; TypeQuestion (lit "Dose?"); ClickAsk;
             ClickUpload; ClickAsk ]
           analyzed)
    = net analyzed ++ map upload_request fs.
Proof.
  exact (no_followUp_after_selection key1 analyzed [doc2]
           [TypeQuestion (lit "Dose?"); ClickAsk; ClickUpload; ClickAsk]
           eq_refl eq_refl).
Defined.

(** ** When the Ask button is enabled *)

Lemma trimStart_empty (q : jsstring) :
  trimStart q = [] -> whitespace_only q = true.
Proof.
  induction q as [|c q IH]; [reflexivity|].
  cbn [trimStart whitespace_only forallb].
  destruct (is_ws c); [exact IH | discriminate].
Qed.

Lemma trimStart_suffix (q : jsstring) :
  exists p : jsstring, q = p ++ trimStart q /\ whitespace_only p = true.
Proof.
  induction q as [|c q [p [Hq Hp]]]; cbn [trimStart].
  - exists []. split; reflexivity.
  - destruct (is_ws c) eqn:Hc.
    + exists (c :: p). cbn [whitespace_only forallb app].
      unfold whitespace_only in Hp. rewrite Hc, Hp.
      split; [now f_equal|reflexivity].
    + exists []. split; reflexivity.
Qed.

Lemma whitespace_only_rev (q : jsstring) :
  whitespace_only (rev q) = whitespace_only q.
Proof.
  unfold whitespace_only. induction q as [|c q IH]; [reflexivity|].
  cbn [rev forallb]. rewrite forallb_app, IH. cbn [forallb].
  rewrite andb_true_r. apply andb_comm.
Qed.

Lemma trim_empty (q : jsstring) :
  trim q = [] -> whitespace_only q = true.
Proof.
  unfold trim, trimEnd. intros H.
  assert (H1 : trimStart (rev (trimStart q)) = []).
  { destruct (trimStart (rev (trimStart q))) as [|c l]; [reflexivity|].
    cbn in H. now destruct (rev l). }
  apply trimStart_empty in H1. rewrite whitespace_only_rev in H1.
  destruct (trimStart_suffix q) as [p [Hq Hp]].
  rewrite Hq. unfold whitespace_only in *. rewrite forallb_app.
  now rewrite Hp, H1.
Qed.

(** The [disabled] expression of the Ask button, read off: it is false
    exactly when an upload has completed, nothing is loading, and the
    question holds at least one code unit that is not whitespace. *)
Lemma ask_enabled_iff (s : State) :
  ask_disabled s = false
  <-> uploadComplete s = true /\ loading s = false
      /\ whitespace_only (question s) = false.
Proof.
  unfold ask_disabled. split.
  - intros H. apply orb_false_elim in H. destruct H as [H Hl].
    apply orb_false_elim in H. destruct H as [Hu Hq].
    apply negb_false_iff in Hu. apply negb_false_iff in Hq.
    repeat split; try assumption.
    destruct (whitespace_only (question s)) eqn:Hw; [|reflexivity].
    rewrite (trim_whitespace _ Hw) in Hq. discriminate.
  - intros (Hu & Hl & Hw). rewrite Hu, Hl. cbn.
    destruct (trim (question s)) as [|c l] eqn:Ht; [|reflexivity].
    apply trim_empty in Ht. congruence.
Qed.

(** ** Reading the reply out of a follow-up response *)

(** X8: the reply path throws on exactly two response bodies, [null] and
    [undefined]; on every other parsed value (a number, a string, an array,
    an object of any shape) it yields a value, [undefined] when the path is
    not there. *)
Theorem reply_path_throws_iff (data : jsval) :
  (exists e : exn, reply_path data = Rejected e) <-> nullish data = true.
Proof.
  unfold reply_path. split.
  - intros [e H]. destruct data; cbn in *; try reflexivity; discriminate.
  - intros H. destruct data; try discriminate; cbn; eauto.
Qed.

(** X9: only the first part of the first candidate is read.  When the
    response is an object whose [candidates] starts with an object, whose
    [content] is an object, whose [parts] starts with an object, the reply
    is that first part's [text], whatever further candidates, parts and
    fields the response carries. *)
Theorem reply_is_first_part_of_first_candidate
  (props c0 content p0 : list (jsstring * jsval))
  (candidates parts : list jsval) :
  own props (lit "candidates") = VArr (VObj c0 :: candidates) ->
  own c0 (lit "content") = VObj content ->
  own content (lit "parts") = VArr (VObj p0 :: parts) ->
  reply_path (VObj props) = Fulfilled (own p0 (lit "text")).
Proof.
  intros Hc Hcontent Hparts. unfold reply_path. cbn.
  rewrite Hc. cbn. rewrite Hcontent. cbn. rewrite Hparts. reflexivity.
Qed.

Lemma reply_is_first_part_of_first_candidate_witness :
  reply_path rich_answer = Fulfilled (VStr (lit "Take it ")).
Proof.
  exact (reply_is_first_part_of_first_candidate
           [ (lit "candidates",
              VArr
                [ VObj [ (lit "content",
                          VObj [ (lit "parts",
                                  VArr [ VObj [ (lit "text",
                                                 VStr (lit "Take it ")) ];
                                         VObj [ (lit "text",
                                                 VStr (lit "with food.")) ]
                                       ]);
                                 (lit "role", VStr (lit "model")) ]);
                         (lit "finishReason", VStr (lit "STOP")) ];
                  VObj [ (lit "content",
                          VObj [ (lit "parts",
                                  VArr [ VObj [ (lit "text",
                                                 VStr (lit "Other.")) ] ])
                               ]) ] ]);
             (lit "modelVersion", VStr (lit "gemini-2.0-flash")) ]
           [ (lit "content",
              VObj [ (lit "parts",
                      VArr [ VObj [ (lit "text", VStr (lit "Take it ")) ];
                             VObj [ (lit "text", VStr (lit "with food.")) ] ]);
                     (lit "role", VStr (lit "model")) ]);
             (lit "finishReason", VStr (lit "STOP")) ]
           [ (lit "parts",
              VArr [ VObj [ (lit "text", VStr (lit "Take it ")) ];
                     VObj [ (lit "text", VStr (lit "with food.")) ] ]);
             (lit "role", VStr (lit "model")) ]
           [ (lit "text", VStr (lit "Take it ")) ]
           [ VObj [ (lit "content",
                     VObj [ (lit "parts",
                             VArr [ VObj [ (lit "text",
                                            VStr (lit "Other.")) ] ]) ]) ] ]
           [ VObj [ (lit "text", VStr (lit "with food.")) ] ]
           eq_refl eq_refl eq_refl).
Defined.

(** ** Failures the user sees *)

Lemma ask_enabled_past_guard (s : State) :
  results_rendered s = true -> ask_disabled s = false -> past_guard s = true.
Proof.
  unfold results_rendered, past_guard. intros Ht Hd. rewrite Ht.
  apply ask_enabled_iff in Hd. destruct Hd as (_ & _ & Hw).
  destruct (question s); [discriminate Hw | reflexivity].
Qed.

Lemma loading_round_trip (s : State) :
  loading s = false -> setLoading false (setLoading true s) = s.
Proof. destruct s. cbn. intros ->. reflexivity. Qed.

(** X7: what a click on Ask does.  On a page that renders, with a key
    configured, the click sends a follow-up request exactly when the
    results section is shown (the text is truthy), an upload has completed,
    nothing is loading and the question holds at least one code unit that
    is not whitespace: it then sends the one request carrying the prompt
    and sets [loading], raising no alert.  In every other state there is no
    button or it is disabled, and the click changes nothing. *)
Theorem ask_click_sends_iff (key : jsstring) (sys : Sys) :
  page_renders (st (mem sys)) = true ->
  key <> [] ->
  if results_rendered (st (mem sys)) && uploadComplete (st (mem sys))
     && negb (loading (st (mem sys)))
     && negb (whitespace_only (question (st (mem sys))))
  then
    exists prompt : jsstring,
      prompt_of (text (st (mem sys))) (question (st (mem sys)))
      = Fulfilled prompt
      /\ net (step (Some key) ClickAsk sys)
         = net sys ++ [followUp_request key prompt]
      /\ in_flight (step (Some key) ClickAsk sys) = S (in_flight sys)
      /\ loading (st (mem (step (Some key) ClickAsk sys))) = true
      /\ alerts (mem (step (Some key) ClickAsk sys)) = alerts (mem sys)
  else step (Some key) ClickAsk sys = sys.
Proof.
  intros Hr Hk.
  destruct (results_rendered (st (mem sys))) eqn:Hres; cbn [andb].
  - destruct (ask_disabled (st (mem sys))) eqn:Hd.
    + (* the button is disabled *)
      assert (Hc : uploadComplete (st (mem sys))
                   && negb (loading (st (mem sys)))
                   && negb (whitespace_only (question (st (mem sys))))
                   = false).
      { destruct (uploadComplete (st (mem sys))) eqn:Hu;
          destruct (loading (st (mem sys))) eqn:Hl;
          destruct (whitespace_only (question (st (mem sys)))) eqn:Hw;
          try reflexivity.
        assert (Hd' : ask_disabled (st (mem sys)) = false)
          by (apply ask_enabled_iff; auto).
        congruence. }
      rewrite Hc. cbn [step]. rewrite Hd, Hr, Hres. reflexivity.
    + pose proof Hd as Hd'. apply ask_enabled_iff in Hd'.
      destruct Hd' as (Hu & Hl & Hw). rewrite Hu, Hl, Hw. cbn [andb negb].
      pose proof (ask_enabled_past_guard _ Hres Hd) as Hg.
      destruct (page_renders_prompt _ Hr Hres) as [prompt Hp].
      exists prompt. split; [exact Hp|].
      destruct (askFollowUp_sends key (st (mem sys)) (mem sys) prompt
                  Hg Hk Hp) as [Hs Hm].
      cbn [step]. rewrite Hr, Hres, Hd. cbn [andb negb]. unfold call.
      destruct (invoke (askFollowUp (Some key) (st (mem sys))) (mem sys))
        as [m1 | m1 req resume | m1 resume]; try discriminate Hs.
      cbn in Hs, Hm. injection Hs as ->. subst m1. cbn.
      repeat split.
      unfold in_flight. cbn [pending].
      rewrite filter_app, length_app. cbn. lia.
  - cbn [step]. rewrite Hres, andb_false_r. reflexivity.
Qed.

Lemma ask_click_sends_iff_witness :
  exists prompt : jsstring,
    prompt_of (VStr (lit "BP: take 1 tablet twice daily")) (lit "Dose?")
    = Fulfilled prompt
    /\ net (step (Some (lit "k")) ClickAsk
              (run key1 [TypeQuestion (lit "Dose?")] analyzed))
       = net (run key1 [TypeQuestion (lit "Dose?")] analyzed)
         ++ [followUp_request (lit "k") prompt]
    /\ in_flight (step (Some (lit "k")) ClickAsk
                    (run key1 [TypeQuestion (lit "Dose?")] analyzed))
       = S (in_flight (run key1 [TypeQuestion (lit "Dose?")] analyzed))
    /\ loading (st (mem (step (Some (lit "k")) ClickAsk
                           (run key1 [TypeQuestion (lit "Dose?")] analyzed))))
       = true
    /\ alerts (mem (step (Some (lit "k")) ClickAsk
                      (run key1 [TypeQuestion (lit "Dose?")] analyzed)))
       = alerts (mem (run key1 [TypeQuestion (lit "Dose?")] analyzed)).
Proof.
  refine (ask_click_sends_iff (lit "k")
            (run key1 [TypeQuestion (lit "Dose?")] analyzed) eq_refl _).
  discriminate.
Defined.

(** X10: without an API key (none configured, or an empty one) a click on
    the enabled Ask button sends nothing and changes no state cell: all it
    does is raise the alert that names the missing key. *)
Theorem ask_without_key_only_alerts (k : option jsstring) (sys : Sys) :
  k = None \/ k = Some [] ->
  page_renders (st (mem sys)) = true ->
  results_rendered (st (mem sys)) = true ->
  ask_disabled (st (mem sys)) = false ->
  step k ClickAsk sys
  = {| mem :=
         {| st := st (mem sys);
            alerts :=
              alerts (mem sys)
              ++ [lit "Follow-up failed: Gemini API key not found. Please check your environment variables."] |};
       net := net sys;
       pending := pending sys |}.
Proof.
  intros Hk Hr Hres Hd.
  pose proof (ask_enabled_past_guard _ Hres Hd) as Hg.
  destruct (page_renders_prompt _ Hr Hres) as [prompt Hp].
  assert (Hl : loading (st (mem sys)) = false).
  { apply ask_enabled_iff in Hd. tauto. }
  destruct sys as [[s al] nt pd]. cbn in *. cbn [step mem st].
  rewrite Hr, Hres, Hd. cbn [andb negb].
  unfold call, invoke, askFollowUp. rewrite (past_guard_passes s Hg).
  cbn. rewrite Hp.
  destruct Hk as [-> | ->]; cbn;
    rewrite (loading_round_trip s Hl); reflexivity.
Qed.

Lemma ask_without_key_only_alerts_witness :
  net (step None ClickAsk (run key1 [TypeQuestion (lit "Dose?")] analyzed))
  = net (run key1 [TypeQuestion (lit "Dose?")] analyzed).
Proof.
  exact (f_equal net
           (ask_without_key_only_alerts None
              (run key1 [TypeQuestion (lit "Dose?")] analyzed)
              (or_introl eq_refl) eq_refl eq_refl eq_refl)).
Defined.

(** X11: what a failed follow-up tells the user.  For a call that passes
    its guard and builds its prompt, with a key configured: when the
    provider answers with a status outside 200-299 and the error text [t],
    the alert is "Follow-up failed: HTTP error! status: " followed by the
    status in decimal, ", message: " and [t]; when the fetch itself is
    rejected with an error, the alert is "Follow-up failed: " followed by
    the error's message, or by "Unknown error" when that message is
    empty.  In both cases nothing but [loading] changes. *)
Theorem followUp_failure_reports
  (key : jsstring) (r : State) (m0 m1 m2 : Mem) (prompt : jsstring) :
  past_guard r = true ->
  key <> [] ->
  prompt_of (text r) (question r) = Fulfilled prompt ->
  (forall (res : Response) (t : jsstring),
     res_ok res = false ->
     res_text res = Fulfilled t ->
     settle (invoke (askFollowUp (Some key) r) m0) (Fulfilled res) m1 m2
     = Finished
         {| st := setLoading false (st m2);
            alerts :=
              alerts m2
              ++ [lit "Follow-up failed: HTTP error! status: "
                  ++ decimal (res_status res) ++ lit ", message: " ++ t] |})
  /\ (forall e : exn,
        settle (invoke (askFollowUp (Some key) r) m0) (Rejected e) m1 m2
        = Finished
            {| st := setLoading false (st m1);
               alerts :=
                 alerts m1
                 ++ [lit "Follow-up failed: "
                     ++ match message e with
                        | [] => lit "Unknown error"
                        | _ => message e
                        end] |}).
Proof.
  intros Hg Hk Hp. destruct key as [|c key]; [contradiction|].
  unfold settle, invoke, askFollowUp. rewrite (past_guard_passes r Hg).
  cbn. rewrite Hp. cbn. split.
  - intros res t Hok Ht. rewrite Hok. cbn. rewrite Ht. reflexivity.
  - intros e. reflexivity.
Qed.

Lemma followUp_failure_reports_witness :
  settle
    (invoke (askFollowUp (Some (lit "k"))
               (st (mem (run key1 [TypeQuestion (lit "Dose?")] analyzed))))
       (mem (run key1 [TypeQuestion (lit "Dose?")] analyzed)))
    (Fulfilled (error_response 429 (lit "quota exceeded")))
    (mem (run key1 [TypeQuestion (lit "Dose?"); ClickAsk] analyzed))
    (mem (run key1 [TypeQuestion (lit "Dose?"); ClickAsk] analyzed))
  = Finished
      {| st := st (mem (run key1 [TypeQuestion (lit "Dose?")] analyzed));
         alerts :=
           [lit "Follow-up failed: HTTP error! status: 429, message: quota exceeded"]
      |}.
Proof.
  refine (proj1 (followUp_failure_reports (lit "k")
                   (st (mem (run key1 [TypeQuestion (lit "Dose?")] analyzed)))
                   (mem (run key1 [TypeQuestion (lit "Dose?")] analyzed))
                   (mem (run key1 [TypeQuestion (lit "Dose?"); ClickAsk]
                           analyzed))
                   (mem (run key1 [TypeQuestion (lit "Dose?"); ClickAsk]
                           analyzed))
                   (prompt_text (lit "BP: take 1 tablet twice daily")
                      (lit "Dose?"))
                   eq_refl _ eq_refl)
            (error_response 429 (lit "quota exceeded"))
            (lit "quota exceeded") eq_refl eq_refl).
  discriminate.
Defined.

(** ** An analysis without text *)

(** X12: when a 2xx analysis response is an object whose [text] is missing
    or falsy (an empty string, say), the upload is marked complete, yet the
    results section is not rendered and no question can be asked: typing
    and the Ask button do nothing, and [askFollowUp] itself returns at its
    guard, whatever the question. *)
Theorem analysis_without_text_is_a_dead_end
  (r : State) (f : File) (m0 m1 m2 : Mem) (res : Response)
  (props : list (jsstring * jsval)) :
  file r = Some f ->
  res_ok res = true ->
  res_json res = Fulfilled (VObj props) ->
  truthy (own props (lit "text")) = false ->
  exists m' : Mem,
    settle (invoke (handleUpload r) m0) (Fulfilled res) m1 m2 = Finished m'
    /\ uploadComplete (st m') = true
    /\ results_rendered (st m') = false
    /\ forall (k : option jsstring) (nt : list Request) (pd : list Pending)
              (q : jsstring),
         step k ClickAsk {| mem := m'; net := nt; pending := pd |}
         = {| mem := m'; net := nt; pending := pd |}
         /\ step k (TypeQuestion q) {| mem := m'; net := nt; pending := pd |}
            = {| mem := m'; net := nt; pending := pd |}
         /\ step k CallAskFollowUp {| mem := m'; net := nt; pending := pd |}
            = {| mem := m'; net := nt; pending := pd |}.
Proof.
  intros Hf Hok Hj Ht. unfold settle, invoke, handleUpload. rewrite Hf. cbn.
  rewrite Hok. cbn. rewrite Hj. cbn.
  eexists. split; [reflexivity|]. cbn [st uploadComplete setLoading
    setUploadComplete]. split; [reflexivity|].
  split; [unfold results_rendered; cbn; exact Ht|].
  intros k nt pd q. cbn [step mem st]. unfold results_rendered. cbn [text
    setLoading setUploadComplete setFollowUp setAnalysis setText].
  rewrite Ht, !andb_false_r. repeat split.
  unfold call, askFollowUp. cbn [text setLoading setUploadComplete
    setFollowUp setAnalysis setText]. rewrite Ht, orb_true_r. reflexivity.
Qed.

Lemma analysis_without_text_is_a_dead_end_witness :
  exists m' : Mem,
    settle
      (invoke (handleUpload (st (mem (run key1 [SelectFile [doc1]] start))))
         (mem (run key1 [SelectFile [doc1]] start)))
      (Fulfilled (ok_json (VObj [(lit "analysis", VStr (lit "Unreadable"))])))
      (mem (run key1 [SelectFile [doc1]; ClickUpload] start))
      (mem (run key1 [SelectFile [doc1]; ClickUpload] start))
    = Finished m'
    /\ uploadComplete (st m') = true
    /\ results_rendered (st m') = false
    /\ forall (k : option jsstring) (nt : list Request) (pd : list Pending)
              (q : jsstring),
         step k ClickAsk {| mem := m'; net := nt; pending := pd |}
         = {| mem := m'; net := nt; pending := pd |}
         /\ step k (TypeQuestion q) {| mem := m'; net := nt; pending := pd |}
            = {| mem := m'; net := nt; pending := pd |}
         /\ step k CallAskFollowUp {| mem := m'; net := nt; pending := pd |}
            = {| mem := m'; net := nt; pending := pd |}.
Proof.
  exact (analysis_without_text_is_a_dead_end
           (st (mem (run key1 [SelectFile [doc1]] start))) doc1
           (mem (run key1 [SelectFile [doc1]] start))
           (mem (run key1 [SelectFile [doc1]; ClickUpload] start))
           (mem (run key1 [SelectFile [doc1]; ClickUpload] start))
           (ok_json (VObj [(lit "analysis", VStr (lit "Unreadable"))]))
           [(lit "analysis", VStr (lit "Unreadable"))]
           eq_refl eq_refl eq_refl eq_refl).
Defined.

(** ** Single flight and retry *)

Lemma page_single_flight_witness :
  in_flight
    (run key1
       [ SelectFile [doc1]; ClickUpload; ClickUpload; SelectFile [doc2];
         ClickAsk; FetchSettles 0 (Fulfilled (ok_json analysis_data));
         ClickUpload; BodyRead 0; TypeQuestion (lit "Dose?"); ClickAsk;
         ClickUpload ]
       start)
  <= 1.
Proof.
  exact (proj2 (page_single_flight key1
                  [ SelectFile [doc1]; ClickUpload; ClickUpload;
                    SelectFile [doc2]; ClickAsk;
                    FetchSettles 0 (Fulfilled (ok_json analysis_data));
                    ClickUpload; BodyRead 0; TypeQuestion (lit "Dose?");
                    ClickAsk; ClickUpload ]
                  eq_refl)).
Defined.

(** X14: a failed upload can be retried at once.  On a page that renders,
    with a file selected and nothing in flight, when the upload started by
    a click fails (the fetch is rejected, the status is outside 200-299,
    the body does not parse, or it parses to [null]), the upload button is
    enabled again and the file is still selected: a second click sends the
    same request again.  The failure has left exactly one alert. *)
Theorem failed_upload_can_be_retried
  (k : option jsstring) (sys : Sys) (f : File) (o : settled Response) :
  page_renders (st (mem sys)) = true ->
  file (st (mem sys)) = Some f ->
  loading (st (mem sys)) = false ->
  pending sys = [] ->
  usable o = false ->
  net (run k [ClickUpload; FetchSettles 0 o; BodyRead 0; ClickUpload] sys)
  = net sys ++ [upload_request f; upload_request f]
  /\ in_flight
       (run k [ClickUpload; FetchSettles 0 o; BodyRead 0; ClickUpload] sys)
     = 1
  /\ length
       (alerts
          (mem (run k [ClickUpload; FetchSettles 0 o; BodyRead 0; ClickUpload]
                  sys)))
     = S (length (alerts (mem sys))).
Proof.
  intros Hr Hf Hl Hp Hu. destruct sys as [[s al] nt pd].
  destruct s as [fl tx an qu fo ld uc].
  cbn in Hf, Hl, Hp. subst fl ld pd.
  unfold usable in Hu. unfold page_renders, results_rendered in Hr.
  cbn in Hr.
  set (s0 := {| file := Some f; text := tx; analysis := an; question := qu;
                followUp := fo; loading := false; uploadComplete := uc |}).
  set (sys0 := {| mem := {| st := s0; alerts := al |}; net := nt;
                  pending := [] |}).
  unfold run. cbn [fold_left].
  assert (H1 : step k ClickUpload sys0 = call (handleUpload s0) sys0).
  { cbn [step mem st sys0]. unfold page_renders, results_rendered,
      upload_disabled. cbn. now rewrite Hr. }
  assert (H2 : exists msg : jsstring,
             step k (BodyRead 0)
               (step k (FetchSettles 0 o) (call (handleUpload s0) sys0))
             = {| mem := {| st := setLoading false
                                    (setUploadComplete false s0);
                            alerts := al ++ [msg] |};
                  net := nt ++ [upload_request f]; pending := [] |}).
  { unfold call, invoke, handleUpload. cbn.
    destruct o as [res | e]; cbn; [|eexists; reflexivity].
    destruct (res_ok res); cbn; [|eexists; reflexivity].
    destruct (res_json res) as [data | e]; cbn; [|eexists; reflexivity].
    destruct data; try discriminate Hu; cbn; eexists; reflexivity. }
  assert (H3 : forall (al' : list jsstring) (nt' : list Request),
             step k ClickUpload
               {| mem := {| st := setLoading false
                                    (setUploadComplete false s0);
                            alerts := al' |};
                  net := nt'; pending := [] |}
             = call (handleUpload s0)
                 {| mem := {| st := setLoading false
                                      (setUploadComplete false s0);
                              alerts := al' |};
                    net := nt'; pending := [] |}).
  { intros al' nt'. cbn [step mem st]. unfold page_renders, results_rendered,
      upload_disabled. cbn. now rewrite Hr. }
  rewrite H1. destruct H2 as [msg H2]. rewrite H2, H3.
  unfold call, invoke, handleUpload. cbn.
  rewrite <- !app_assoc, !length_app. cbn. repeat split. lia.
Qed.

Lemma failed_upload_can_be_retried_witness :
  net (run key1
         [ ClickUpload;
           FetchSettles 0 (Rejected (Error (lit "Failed to fetch")));
           BodyRead 0; ClickUpload ]
         (run key1 [SelectFile [doc1]] start))
  = [upload_request doc1; upload_request doc1].
Proof.
  exact (proj1 (failed_upload_can_be_retried key1
                  (run key1 [SelectFile [doc1]] start) doc1
                  (Rejected (Error (lit "Failed to fetch")))
                  eq_refl eq_refl eq_refl eq_refl eq_refl)).
Defined.

(** * Properties of the dashboard *)

Ltac quiet_steps :=
  repeat
    (cbn;
     match goal with
     | |- Dashboard.quiet_sync _ (Dashboard.Finished _) =>
         apply Dashboard.quiet_finished; reflexivity
     | |- Dashboard.quiet_sync _ (Dashboard.OnToken _ _) =>
         apply Dashboard.quiet_token;
         [reflexivity | reflexivity | intros [?tok | ?e] ?m]
     | |- Dashboard.quiet_sync _ (Dashboard.OnFetch _ _ _) =>
         apply Dashboard.quiet_fetch;
         [reflexivity | reflexivity | intros [?res | ?e] ?m]
     | |- Dashboard.quiet_sync _ (Dashboard.OnBody _ _) =>
         apply Dashboard.quiet_body;
         [reflexivity | reflexivity | intros ?m]
     | |- context [negb (res_ok ?res)] => destruct (res_ok res)
     | |- context [res_json ?res] => destruct (res_json res) as [?data | ?e]
     | |- context [res_text ?res] => destruct (res_text res) as [?t | ?e]
     end).

(** X15: the sync of the user never shows.  In a render where Clerk is
    loaded, the user signed in and known, the effect sets [syncing] and
    asks for a token; from there on, whatever the token request, the fetch
    and the body reads settle with, the invocation ends with [syncing]
    reset, and at no point has it raised an alert or changed [response]:
    every failure of the sync is swallowed. *)
Theorem sync_is_quiet (a : Dashboard.Auth) (u : Dashboard.ClerkUser)
  (m : Dashboard.Mem) :
  Dashboard.isLoaded a = true ->
  Dashboard.isSignedIn a = true ->
  Dashboard.user a = Some u ->
  (exists resume : settled (option jsstring) -> Dashboard.Mem -> Dashboard.Step,
     Dashboard.invoke (Dashboard.syncUser a) m
     = Dashboard.OnToken
         {| Dashboard.st := Dashboard.setSyncing true (Dashboard.st m);
            Dashboard.alerts := Dashboard.alerts m |}
         resume)
  /\ Dashboard.quiet_sync m (Dashboard.invoke (Dashboard.syncUser a) m).
Proof.
  intros Hl Hs Hu. unfold Dashboard.invoke, Dashboard.syncUser.
  rewrite Hl, Hs, Hu. cbn. split; [eexists; reflexivity|]. quiet_steps.
Qed.

Lemma sync_is_quiet_witness :
  Dashboard.quiet_sync
    {| Dashboard.st := Dashboard.initial; Dashboard.alerts := [] |}
    (Dashboard.invoke (Dashboard.syncUser Dashboard.signed_in)
       {| Dashboard.st := Dashboard.initial; Dashboard.alerts := [] |}).
Proof.
  exact (proj2 (sync_is_quiet Dashboard.signed_in
                  {| Dashboard.fullName := VStr (lit "Ada Lovelace");
                     Dashboard.primaryEmailAddress := None |}
                  {| Dashboard.st := Dashboard.initial;
                     Dashboard.alerts := [] |}
                  eq_refl eq_refl eq_refl)).
Defined.



(** X17: how [fetchData] ends.  Where its button is rendered (Clerk loaded,
    user signed in), the invocation always ends, in one of three ways.  A
    2xx response whose body parses is stored in [response], without an
    alert.  A response with another status raises the alert
    "Failed to fetch protected data" and changes nothing.  Every other
    failure (the token request or the fetch is rejected, the body does not
    parse) is silent: no alert, no change.  Where the button is not
    rendered, a call only raises "Please sign in first". *)
Theorem fetchData_outcomes
  (a : Dashboard.Auth) (m0 m1 m2 m3 : Dashboard.Mem)
  (tok : settled (option jsstring)) (o : settled Response) :
  (Dashboard.button_rendered a = true ->
   Dashboard.settle (Dashboard.invoke (Dashboard.fetchData a) m0)
     tok o m1 m2 m3
   = Dashboard.Finished
       match tok, o with
       | Rejected _, _ => m1
       | Fulfilled _, Rejected _ => m2
       | Fulfilled _, Fulfilled res =>
           if res_ok res then
             match res_json res with
             | Fulfilled data =>
                 {| Dashboard.st := Dashboard.setResponse data
                                      (Dashboard.st m3);
                    Dashboard.alerts := Dashboard.alerts m3 |}
             | Rejected _ => m3
             end
           else
             {| Dashboard.st := Dashboard.st m2;
                Dashboard.alerts :=
                  Dashboard.alerts m2
                  ++ [lit "Failed to fetch protected data"] |}
       end)
  /\ (Dashboard.button_rendered a = false ->
      Dashboard.invoke (Dashboard.fetchData a) m0
      = Dashboard.Finished
          {| Dashboard.st := Dashboard.st m0;
             Dashboard.alerts :=
               Dashboard.alerts m0 ++ [lit "Please sign in first"] |}).
Proof.
  unfold Dashboard.button_rendered, Dashboard.settle, Dashboard.invoke,
    Dashboard.fetchData.
  split; intros H.
  - apply andb_prop in H. destruct H as [Hl Hs]. rewrite Hl, Hs. cbn.
    destruct tok as [token | e]; cbn; [|reflexivity].
    destruct o as [res | e]; cbn; [|reflexivity].
    destruct (res_ok res); cbn; [|reflexivity].
    destruct (res_json res) as [data | e]; reflexivity.
  - assert (Hg : negb (Dashboard.isLoaded a) || negb (Dashboard.isSignedIn a)
                 = true).
    { destruct (Dashboard.isLoaded a), (Dashboard.isSignedIn a);
        try reflexivity; discriminate. }
    rewrite Hg. reflexivity.
Qed.

Lemma fetchData_outcomes_witness :
  Dashboard.settle
    (Dashboard.invoke (Dashboard.fetchData Dashboard.signed_in)
       {| Dashboard.st := Dashboard.initial; Dashboard.alerts := [] |})
    (Fulfilled (Some (lit "t0k3n")))
    (Rejected (Error (lit "Failed to fetch")))
    {| Dashboard.st := Dashboard.initial; Dashboard.alerts := [] |}
    {| Dashboard.st := Dashboard.initial; Dashboard.alerts := [] |}
    {| Dashboard.st := Dashboard.initial; Dashboard.alerts := [] |}
  = Dashboard.Finished
      {| Dashboard.st := Dashboard.initial; Dashboard.alerts := [] |}.
Proof.
  exact (proj1 (fetchData_outcomes Dashboard.signed_in
                  {| Dashboard.st := Dashboard.initial;
                     Dashboard.alerts := [] |}
                  {| Dashboard.st := Dashboard.initial;
                     Dashboard.alerts := [] |}
                  {| Dashboard.st := Dashboard.initial;
                     Dashboard.alerts := [] |}
                  {| Dashboard.st := Dashboard.initial;
                     Dashboard.alerts := [] |}
                  (Fulfilled (Some (lit "t0k3n")))
                  (Rejected (Error (lit "Failed to fetch"))))
           eq_refl).
Defined.

(** * Properties of the backend route *)

Lemma jsstring_eqb_eq (a b : jsstring) : jsstring_eqb a b = true <-> a = b.
Proof.
  revert b. induction a as [|x a IH]; intros [|y b]; cbn;
    try (split; [discriminate | discriminate]); [tauto|].
  rewrite andb_true_iff, N.eqb_eq, IH. split.
  - intros [-> ->]. reflexivity.
  - intros H. injection H. auto.
Qed.

Lemma findOne_some (docs : list Server.Doc) (c : jsstring) (d : Server.Doc) :
  Server.findOne docs c = Some d -> In d docs /\ Server.clerkId d = c.
Proof.
  unfold Server.findOne. intros H. apply find_some in H.
  destruct H as [Hin He]. split; [exact Hin|]. now apply jsstring_eqb_eq.
Qed.

Lemma findOne_none (docs : list Server.Doc) (c : jsstring) :
  Server.findOne docs c = None -> ~ In c (map Server.clerkId docs).
Proof.
  unfold Server.findOne. intros H Hin. apply in_map_iff in Hin.
  destruct Hin as [d [Hc Hd]].
  pose proof (find_none _ _ H d Hd) as Hn. cbn in Hn.
  rewrite Hc in Hn.
  assert (Ht : jsstring_eqb c c = true) by now apply jsstring_eqb_eq.
  congruence.
Qed.

Lemma findOne_app_new (docs : list Server.Doc) (d : Server.Doc) :
  Server.findOne docs (Server.clerkId d) = None ->
  Server.findOne (docs ++ [d]) (Server.clerkId d) = Some d.
Proof.
  unfold Server.findOne. induction docs as [|x docs IH]; cbn.
  - intros _.
    assert (Ht : jsstring_eqb (Server.clerkId d) (Server.clerkId d) = true)
      by now apply jsstring_eqb_eq.
    now rewrite Ht.
  - destruct (jsstring_eqb (Server.clerkId x) (Server.clerkId d));
      [discriminate | exact IH].
Qed.

Lemma getField_present (body : jsval) (key : jsstring) :
  nullish body = false -> exists v, getField body key = Fulfilled v.
Proof. destruct body; cbn; intros H; try discriminate; eauto. Qed.

(** One request served alone: what it does to the collection and what it
    sends back. *)
Lemma serve_alone (w : Server.World) (body : jsval) (c : jsstring) :
  Server.tasks w = [] ->
  nullish body = false ->
  Server.serve w (body, c)
  = match Server.findOne (Server.db w) c with
    | Some d =>
        {| Server.db := Server.db w; Server.tasks := [];
           Server.replies := Server.replies w ++ [d] |}
    | None =>
        match Server.document_of body c with
        | Fulfilled d =>
            {| Server.db := Server.db w ++ [d]; Server.tasks := [];
               Server.replies := Server.replies w ++ [d] |}
        | Rejected _ => w
        end
    end.
Proof.
  intros Ht Hb. destruct w as [docs ts rs]. cbn in Ht. subst ts.
  destruct (getField_present body (lit "name") Hb) as [n Hn].
  destruct (getField_present body (lit "email") Hb) as [e He].
  unfold Server.serve, Server.run, Server.document_of.
  cbn [fold_left fst snd]. cbn [Server.step]. unfold Server.post_users.
  rewrite Hn, He. cbn.
  destruct (Server.findOne docs c) as [d'|] eqn:Hf; cbn; [reflexivity|].
  destruct (Server.new_User c n e) as [d | err]; reflexivity.
Qed.

Lemma document_of_clerkId (body : jsval) (c : jsstring) (d : Server.Doc) :
  Server.document_of body c = Fulfilled d -> Server.clerkId d = c.
Proof.
  unfold Server.document_of, Server.new_User.
  destruct (getField body (lit "name")) as [n|]; [|discriminate].
  destruct (getField body (lit "email")) as [e|]; [|discriminate].
  destruct (Server.castString n); [|discriminate].
  destruct (Server.castString e); [|discriminate].
  intros H. injection H as <-. reflexivity.
Qed.

(** X18: the route never updates a user.  A request of a caller served
    alone either is answered, or (the caller is new and a value of the body
    cannot be cast to a string) is not answered and writes nothing.  Once
    one has been answered, a later request of the same caller, whatever
    name and e-mail its body carries, writes nothing: the collection is
    what it was after the first, and both are answered with the same
    document, which is in the collection under the caller's [clerkId]. *)
Theorem second_sync_changes_nothing
  (w : Server.World) (body1 body2 : jsval) (c : jsstring) :
  Server.tasks w = [] ->
  nullish body1 = false ->
  nullish body2 = false ->
  match Server.findOne (Server.db w) c, Server.document_of body1 c with
  | None, Rejected _ => Server.serve w (body1, c) = w
  | _, _ =>
      exists d : Server.Doc,
        Server.replies (Server.serve w (body1, c)) = Server.replies w ++ [d]
        /\ Server.db (Server.serve (Server.serve w (body1, c)) (body2, c))
           = Server.db (Server.serve w (body1, c))
        /\ Server.replies
             (Server.serve (Server.serve w (body1, c)) (body2, c))
           = Server.replies w ++ [d; d]
        /\ In d (Server.db (Server.serve w (body1, c)))
        /\ Server.clerkId d = c
  end.
Proof.
  intros Ht Hb1 Hb2.
  pose proof (serve_alone w body1 c Ht Hb1) as H1.
  set (w1 := Server.serve w (body1, c)) in *.
  assert (Hafter : forall d : Server.Doc,
             Server.tasks w1 = [] ->
             Server.replies w1 = Server.replies w ++ [d] ->
             Server.findOne (Server.db w1) c = Some d ->
             exists d0 : Server.Doc,
               Server.replies w1 = Server.replies w ++ [d0]
               /\ Server.db (Server.serve w1 (body2, c)) = Server.db w1
               /\ Server.replies (Server.serve w1 (body2, c))
                  = Server.replies w ++ [d0; d0]
               /\ In d0 (Server.db w1)
               /\ Server.clerkId d0 = c).
  { intros d Ht1 Hr1 Hf1.
    pose proof (serve_alone w1 body2 c Ht1 Hb2) as H2.
    rewrite Hf1 in H2. exists d. rewrite H2. cbn [Server.db Server.replies].
    destruct (findOne_some _ _ _ Hf1) as [Hin Hc].
    rewrite Hr1, <- app_assoc. auto. }
  destruct (Server.findOne (Server.db w) c) as [d|] eqn:Hf.
  - assert (Hgoal : exists d0 : Server.Doc,
               Server.replies w1 = Server.replies w ++ [d0]
               /\ Server.db (Server.serve w1 (body2, c)) = Server.db w1
               /\ Server.replies (Server.serve w1 (body2, c))
                  = Server.replies w ++ [d0; d0]
               /\ In d0 (Server.db w1)
               /\ Server.clerkId d0 = c).
    { apply (Hafter d); rewrite H1; cbn [Server.db Server.tasks Server.replies];
        [reflexivity | reflexivity | exact Hf]. }
    destruct (Server.document_of body1 c); exact Hgoal.
  - destruct (Server.document_of body1 c) as [d | e] eqn:Hd; [|exact H1].
    apply (Hafter d); rewrite H1; cbn [Server.db Server.tasks Server.replies];
      [reflexivity | reflexivity |].
    rewrite <- (document_of_clerkId body1 c d Hd).
    apply findOne_app_new. now rewrite (document_of_clerkId body1 c d Hd).
Qed.

Lemma second_sync_changes_nothing_witness :
  (exists d : Server.Doc,
     Server.replies
       (Server.serve Server.empty_world (Server.ada_body, lit "user_1"))
     = Server.replies Server.empty_world ++ [d]
     /\ Server.db
          (Server.serve
             (Server.serve Server.empty_world (Server.ada_body, lit "user_1"))
             (Server.other_body, lit "user_1"))
        = Server.db
            (Server.serve Server.empty_world (Server.ada_body, lit "user_1"))
     /\ Server.replies
          (Server.serve
             (Server.serve Server.empty_world (Server.ada_body, lit "user_1"))
             (Server.other_body, lit "user_1"))
        = Server.replies Server.empty_world ++ [d; d]
     /\ In d (Server.db
                (Server.serve Server.empty_world
                   (Server.ada_body, lit "user_1")))
     /\ Server.clerkId d = lit "user_1")
  /\ Server.serve Server.empty_world (Server.odd_body, lit "user_1")
     = Server.empty_world.
Proof.
  split.
  - exact (second_sync_changes_nothing Server.empty_world Server.ada_body
             Server.other_body (lit "user_1") eq_refl eq_refl eq_refl).
  - exact (second_sync_changes_nothing Server.empty_world Server.odd_body
             Server.other_body (lit "user_1") eq_refl eq_refl eq_refl).
Defined.

Lemma NoDup_snoc (l : list jsstring) (x : jsstring) :
  ~ In x l -> NoDup l -> NoDup (l ++ [x]).
Proof.
  induction l as [|a l IH]; cbn; intros Hin Hnd.
  - constructor; [intros [] | constructor].
  - inversion Hnd as [|a' l' Ha Hl]; subst. constructor.
    + intros H. apply in_app_or in H. destruct H as [H | [H | []]].
      * contradiction.
      * subst. apply Hin. now left.
    + apply IH; [|assumption]. intros H. apply Hin. now right.
Qed.

Lemma serve_keeps_unique (w : Server.World) (req : jsval * jsstring) :
  Server.tasks w = [] ->
  Server.unique_ids (Server.db w) ->
  Server.tasks (Server.serve w req) = []
  /\ Server.unique_ids (Server.db (Server.serve w req)).
Proof.
  intros Ht Hu. destruct req as [body c].
  destruct (nullish body) eqn:Hb.
  - (* the destructuring throws: nothing is asked of the database *)
    destruct w as [docs ts rs]. cbn in Ht. subst ts.
    destruct body; try discriminate Hb; cbn; auto.
  - rewrite (serve_alone w body c Ht Hb).
    destruct (Server.findOne (Server.db w) c) eqn:Hf;
      [cbn; auto|].
    destruct (Server.document_of body c) as [d | e] eqn:Hd; [|auto].
    cbn [Server.tasks Server.db]. split; [reflexivity|].
    unfold Server.unique_ids in *. rewrite map_app. cbn.
    apply NoDup_snoc; [|exact Hu].
    rewrite (document_of_clerkId body c d Hd). now apply findOne_none.
Qed.

(** X19: served one at a time, requests keep the collection free of
    duplicates.  When no handler is waiting and no two documents share a
    [clerkId], serving any list of requests one after the other, each to
    its end before the next arrives, leaves a collection in which still no
    two documents share a [clerkId]. *)
Theorem serving_in_turn_keeps_ids_unique
  (reqs : list (jsval * jsstring)) (w : Server.World) :
  Server.tasks w = [] ->
  Server.unique_ids (Server.db w) ->
  Server.unique_ids (Server.db (fold_left Server.serve reqs w)).
Proof.
  revert w. induction reqs as [|req reqs IH]; intros w Ht Hu; [exact Hu|].
  cbn [fold_left]. destruct (serve_keeps_unique w req Ht Hu) as [Ht1 Hu1].
  now apply IH.
Qed.

Lemma serving_in_turn_keeps_ids_unique_witness :
  Server.unique_ids
    (Server.db
       (fold_left Server.serve
          [ (Server.ada_body, lit "user_1"); (Server.other_body, lit "user_2");
            (Server.other_body, lit "user_1"); (VNull, lit "user_3") ]
          Server.empty_world)).
Proof.
  apply (serving_in_turn_keeps_ids_unique
           [ (Server.ada_body, lit "user_1"); (Server.other_body, lit "user_2");
             (Server.other_body, lit "user_1"); (VNull, lit "user_3") ]
           Server.empty_world eq_refl).
  constructor.
Defined.


